(** * Multi-Domain Intelligence Platform: authentication and record access

    A shallow embedding of [services/database_manager.py],
    [services/auth_manager.py], [services/security_service.py],
    [services/dataset_service.py] and [services/it_service.py].

    The SQLite file is a record of four tables.  A table is the list of
    its rows in rowid order together with the AUTOINCREMENT counter of
    [sqlite_sequence]; every service constructor has run its
    [CREATE TABLE IF NOT EXISTS], so the four tables exist.  Python
    methods are computations in a state-and-exception monad over that
    record: a raised exception keeps whatever earlier statements of the
    same call have committed.  Integers are unbounded ([Z]); the REAL
    results of [AVG] are exact rationals ([Q]); a Python [str] is the
    sequence of its UTF-8 bytes, so [encode('utf-8')] only changes the
    type. *)

From Stdlib Require Import ZArith List String Ascii Bool Lia.
From Stdlib Require Import Permutation Sorted QArith Qabs.
From Stdlib Require Import DecimalString DecimalZ.
Import ListNotations.

Open Scope string_scope.
Open Scope list_scope.
Open Scope Z_scope.

(** ** Python values, exceptions and the monad of method bodies *)

Definition bytes := list Byte.byte.

Definition encode (s : string) : bytes := list_byte_of_string s.

(** A value read from a column of a [sqlite3.Row] or put into the
    dictionary that [login] returns. *)
Inductive pyval : Type :=
| PInt (n : Z)
| PStr (s : string)
| PBytes (b : bytes)
| PMemoryview (b : bytes)
| PNone.

(** A cell of a pandas data frame, also a declared-numeric argument of
    [create] and [update]: an integer, a text, or NaN (an empty cell). *)
Inductive cell : Type :=
| CInt (n : Z)
| CStr (s : string)
| CNaN.

Inductive exn : Type :=
| FileNotFoundError
| ParserError
| KeyError (key : string)
| ValueError
| TypeError
| IntegrityError.

Inductive result (A : Type) : Type :=
| Ok (a : A)
| Raise (e : exn).

Arguments Ok {A} a.
Arguments Raise {A} e.

Definition M (S A : Type) : Type := S -> result A * S.

Definition ret {S A} (a : A) : M S A := fun s => (Ok a, s).

Definition bind {S A B} (m : M S A) (k : A -> M S B) : M S B :=
  fun s =>
    match m s with
    | (Ok a, s') => k a s'
    | (Raise e, s') => (Raise e, s')
    end.

Definition lift {S A} (r : result A) : M S A := fun s => (r, s).

(** [try: body / except Exception: handler] *)
Definition try_except {S A} (body : M S A) (handler : exn -> M S A) : M S A :=
  fun s =>
    match body s with
    | (Ok a, s') => (Ok a, s')
    | (Raise e, s') => handler e s'
    end.

Declare Scope py_scope.
Delimit Scope py_scope with py.

Notation "x <- m ;; k" := (bind m (fun x => k))
  (at level 100, m at next level, right associativity) : py_scope.
Notation "m ;;; k" := (bind m (fun _ => k))
  (at level 100, right associativity) : py_scope.

Open Scope py_scope.

(** [for x in xs: body x] *)
Fixpoint for_each {S A} (xs : list A) (body : A -> M S unit) : M S unit :=
  match xs with
  | [] => ret tt
  | x :: xs' => body x ;;; for_each xs' body
  end.

(** Truth value of a [str]: the empty string is false. *)
Definition truthy (s : string) : bool :=
  match s with
  | EmptyString => false
  | String _ _ => true
  end.

(** *** [int(x)] *)

Definition is_space (c : ascii) : bool :=
  let n := N_of_ascii c in
  ((9 <=? n) && (n <=? 13))%N || ((28 <=? n) && (n <=? 32))%N.

Fixpoint lstrip (s : string) : string :=
  match s with
  | EmptyString => EmptyString
  | String c s' => if is_space c then lstrip s' else s
  end.

Fixpoint rev_string (s acc : string) : string :=
  match s with
  | EmptyString => acc
  | String c s' => rev_string s' (String c acc)
  end.

Definition strip (s : string) : string :=
  rev_string (lstrip (rev_string (lstrip s) EmptyString)) EmptyString.

Definition digit_of (c : ascii) : option Z :=
  let n := Z.of_N (N_of_ascii c) in
  if (48 <=? n) && (n <=? 57) then Some (n - 48) else None.

(** Decimal digits, a single underscore allowed between two digits. *)
Fixpoint digits (s : string) (acc : Z) (after_digit : bool) : option Z :=
  match s with
  | EmptyString => if after_digit then Some acc else None
  | String c s' =>
      match digit_of c with
      | Some d => digits s' (10 * acc + d) true
      | None =>
          if (c =? "_")%char && after_digit then digits s' acc false else None
      end
  end.

(** [int(s)] for a [str]: surrounding whitespace, an optional sign, ASCII
    decimal digits. *)
Definition int_of_str (s : string) : option Z :=
  match strip s with
  | String "-" r => option_map Z.opp (digits r 0 false)
  | String "+" r => digits r 0 false
  | t => digits t 0 false
  end.

Definition py_int (v : cell) : result Z :=
  match v with
  | CInt n => Ok n
  | CStr s =>
      match int_of_str s with
      | Some n => Ok n
      | None => Raise ValueError
      end
  | CNaN => Raise ValueError
  end.

(** ** pandas: the data frame of [read_csv] *)

Record DataFrame : Type := mkDataFrame {
  df_columns : list string;
  df_values : list (list cell)
}.

(** A row of [iterrows()]: the cells labelled by the column names. *)
Definition Series := list (string * cell).

Definition iterrows (df : DataFrame) : list Series :=
  map (fun cells => combine (df_columns df) cells) (df_values df).

(** [row[key]] *)
Fixpoint getitem (row : Series) (key : string) : result cell :=
  match row with
  | [] => Raise (KeyError key)
  | (k, v) :: row' => if (k =? key)%string then Ok v else getitem row' key
  end.

(** ** SQLite: values, tables, statements *)

(** A value in a column declared TEXT: NULL or a text. *)
Definition sqltext := option string.

(** Binding a cell to a TEXT column: NaN is stored as NULL, an integer as
    its decimal text. *)
Definition bind_text (v : cell) : sqltext :=
  match v with
  | CStr s => Some s
  | CInt n => Some (NilZero.string_of_int (Z.to_int n))
  | CNaN => None
  end.

Record table (A : Type) : Type := mkTable {
  tbl_rows : list (Z * A);
  tbl_seq : Z
}.

Arguments mkTable {A} tbl_rows tbl_seq.
Arguments tbl_rows {A} t.
Arguments tbl_seq {A} t.

Definition empty_table {A} : table A := mkTable [] 0.

Definition max_rowid {A} (rows : list (Z * A)) : Z :=
  fold_right (fun r m => Z.max (fst r) m) 0 rows.

(** [id INTEGER PRIMARY KEY AUTOINCREMENT]: one more than the largest
    rowid that is or ever was in the table. *)
Definition next_rowid {A} (t : table A) : Z :=
  Z.max (tbl_seq t) (max_rowid (tbl_rows t)) + 1.

(** [INSERT INTO t (...) VALUES (...)] *)
Definition sql_insert {A} (a : A) (t : table A) : table A :=
  let i := next_rowid t in
  mkTable (tbl_rows t ++ [(i, a)]) i.

(** [UPDATE t SET ... WHERE id=?] *)
Definition sql_update {A} (i : Z) (a : A) (t : table A) : table A :=
  mkTable (map (fun r => if fst r =? i then (fst r, a) else r) (tbl_rows t))
          (tbl_seq t).

(** [DELETE FROM t WHERE id=?] *)
Definition sql_delete {A} (i : Z) (t : table A) : table A :=
  mkTable (filter (fun r => negb (fst r =? i)) (tbl_rows t)) (tbl_seq t).

(** The BINARY collation on TEXT, NULL before every text. *)
Definition text_leb (a b : sqltext) : bool :=
  match a, b with
  | None, _ => true
  | Some _, None => false
  | Some x, Some y => String.leb x y
  end.

Definition text_eqb (a b : sqltext) : bool :=
  match a, b with
  | None, None => true
  | Some x, Some y => (x =? y)%string
  | _, _ => false
  end.

(** Sorting by insertion; [le x y] says that [x] may come before [y]. *)
Fixpoint insert_sorted {A} (le : A -> A -> bool) (x : A) (l : list A) : list A :=
  match l with
  | [] => [x]
  | y :: l' => if le x y then x :: l else y :: insert_sorted le x l'
  end.

Definition sort_by {A} (le : A -> A -> bool) (l : list A) : list A :=
  fold_right (insert_sorted le) [] l.

(** [ORDER BY key DESC] on a TEXT key *)
Definition order_by_desc {A} (key : A -> sqltext) (l : list A) : list A :=
  sort_by (fun x y => text_leb (key y) (key x)) l.

(** [ORDER BY key] on a TEXT key *)
Definition order_by_asc {A} (key : A -> sqltext) (l : list A) : list A :=
  sort_by (fun x y => text_leb (key x) (key y)) l.

(** The distinct values of a list, at their first occurrence. *)
Fixpoint distinct (l : list sqltext) : list sqltext :=
  match l with
  | [] => []
  | k :: l' => k :: filter (fun k' => negb (text_eqb k' k)) (distinct l')
  end.

(** [GROUP BY key]: the groups, in ascending key order, each with its rows. *)
Definition group_by {A} (key : A -> sqltext) (l : list A)
  : list (sqltext * list A) :=
  map (fun k => (k, filter (fun r => text_eqb (key r) k) l))
      (order_by_asc (fun k => k) (distinct (map key l))).

(** [COUNT( * )] *)
Definition sql_count {A} (l : list A) : Z := Z.of_nat (List.length l).

(** [SELECT key, COUNT( * ) ... GROUP BY key] *)
Definition sql_group_count {A} (key : A -> sqltext) (l : list A)
  : list (sqltext * Z) :=
  map (fun g => (fst g, sql_count (snd g))) (group_by key l).

Definition total (l : list Z) : Z := fold_right Z.add 0 l.


(** [AVG(col)]: NULL over no rows, else the sum divided by the count. *)
Definition sql_avg (l : list Z) : option Q :=
  match l with
  | [] => None
  | _ => Some (inject_Z (total l) / inject_Z (sql_count l))%Q
  end.

(** [x IN (...)]: NULL is in no list. *)
Definition text_in (x : sqltext) (l : list string) : bool :=
  match x with
  | None => false
  | Some s => existsb (String.eqb s) l
  end.

(** A TEXT column read back through [sqlite3.Row]. *)
Definition text_value (x : sqltext) : pyval :=
  match x with
  | None => PNone
  | Some s => PStr s
  end.

(** ** The four tables *)

Module Users.
Record row : Type := mk {
  username : sqltext;
  password_hash : pyval;
  role : sqltext
}.
End Users.

Module Incident.
Record row : Type := mk {
  incident_id : Z;
  timestamp : sqltext;
  severity : sqltext;
  category : sqltext;
  status : sqltext;
  description : sqltext
}.
End Incident.

Module Dataset.
Record row : Type := mk {
  dataset_id : Z;
  name : sqltext;
  rows : Z;
  columns : Z;
  uploaded_by : sqltext;
  upload_date : sqltext
}.
End Dataset.

Module Ticket.
Record row : Type := mk {
  ticket_id : Z;
  priority : sqltext;
  description : sqltext;
  status : sqltext;
  assigned_to : sqltext;
  created_at : sqltext;
  resolution_time_hours : Z
}.
End Ticket.

(** [platform.db] *)
Record db : Type := mkDb {
  users : table Users.row;
  cyber_incidents : table Incident.row;
  datasets_metadata : table Dataset.row;
  it_tickets : table Ticket.row
}.

Definition empty_db : db :=
  mkDb empty_table empty_table empty_table empty_table.

Definition on_users (f : table Users.row -> table Users.row) (d : db) : db :=
  mkDb (f (users d)) (cyber_incidents d) (datasets_metadata d) (it_tickets d).

Definition on_cyber_incidents
  (f : table Incident.row -> table Incident.row) (d : db) : db :=
  mkDb (users d) (f (cyber_incidents d)) (datasets_metadata d) (it_tickets d).

Definition on_datasets_metadata
  (f : table Dataset.row -> table Dataset.row) (d : db) : db :=
  mkDb (users d) (cyber_incidents d) (f (datasets_metadata d)) (it_tickets d).

Definition on_it_tickets
  (f : table Ticket.row -> table Ticket.row) (d : db) : db :=
  mkDb (users d) (cyber_incidents d) (datasets_metadata d) (f (it_tickets d)).

(** What [pd.read_csv(path)] yields for each path: the parsed frame,
    [FileNotFoundError] where there is no file, [ParserError] where pandas
    cannot parse it. *)
Definition filesystem := string -> result DataFrame.

(** ** services/database_manager.py *)

Module DatabaseManager.

(** A write statement with its parameters bound: the new store, or the
    error SQLite reports, in which case nothing was changed. *)
Definition statement := db -> result db.

(** A SELECT with its parameters bound: the result rows. *)
Definition query (R : Type) := db -> list R.

(** [CREATE TABLE IF NOT EXISTS t (...)], the table being there. *)
Definition CREATE_TABLE_IF_NOT_EXISTS : statement := fun d => Ok d.

(** [self.cur.execute(query, params); self.conn.commit()] *)
Definition execute (stmt : statement) : M db unit :=
  fun d =>
    match stmt d with
    | Ok d' => (Ok tt, d')
    | Raise e => (Raise e, d)
    end.

(** [self.cur.execute(query, params).fetchall()] *)
Definition fetchall {R} (q : query R) : M db (list R) :=
  fun d => (Ok (q d), d).

(** [self.cur.execute(query, params).fetchone()] *)
Definition fetchone {R} (q : query R) : M db (option R) :=
  fun d => (Ok (hd_error (q d)), d).

End DatabaseManager.

Import DatabaseManager.

Definition item {S} (row : Series) (key : string) : M S cell :=
  lift (getitem row key).

Definition int {S} (v : cell) : M S Z := lift (py_int v).

(** ** services/security_service.py *)

Module SecurityService.

Definition _create_table : M db unit :=
  execute CREATE_TABLE_IF_NOT_EXISTS.

Definition INSERT (incident_id : Z)
  (timestamp severity category status description : sqltext) : statement :=
  fun d =>
    Ok (on_cyber_incidents
          (sql_insert (Incident.mk incident_id timestamp severity category
                                   status description)) d).

Definition UPDATE (incident_id : Z)
  (timestamp severity category status description : sqltext) (id : Z)
  : statement :=
  fun d =>
    Ok (on_cyber_incidents
          (sql_update id (Incident.mk incident_id timestamp severity category
                                      status description)) d).

Definition DELETE (id : Z) : statement :=
  fun d => Ok (on_cyber_incidents (sql_delete id) d).

Definition load_csv (fs : filesystem) (path : string) : M db unit :=
  df <- lift (fs path) ;;
  for_each (iterrows df) (fun row =>
    c1 <- item row "incident_id" ;;
    incident_id <- int c1 ;;
    timestamp <- item row "timestamp" ;;
    severity <- item row "severity" ;;
    category <- item row "category" ;;
    status <- item row "status" ;;
    description <- item row "description" ;;
    execute (INSERT incident_id (bind_text timestamp) (bind_text severity)
               (bind_text category) (bind_text status)
               (bind_text description))).

Definition create_incident (incident_id : cell)
  (timestamp severity category status description : string) : M db unit :=
  n <- int incident_id ;;
  execute (INSERT n (Some timestamp) (Some severity) (Some category)
             (Some status) (Some description)).

Definition update_incident (id : Z) (incident_id : cell)
  (timestamp severity category status description : string) : M db unit :=
  n <- int incident_id ;;
  execute (UPDATE n (Some timestamp) (Some severity) (Some category)
             (Some status) (Some description) id).

Definition delete_incident (id : Z) : M db unit :=
  execute (DELETE id).

Definition all : M db (list (Z * Incident.row)) :=
  fetchall (fun d =>
    order_by_desc (fun r => Incident.timestamp (snd r))
                  (tbl_rows (cyber_incidents d))).

Definition total_count : M db Z :=
  result <- fetchone (fun d => [sql_count (tbl_rows (cyber_incidents d))]) ;;
  ret (match result with Some total => total | None => 0 end).

Definition open_count : M db Z :=
  result <- fetchone (fun d =>
    [sql_count (filter (fun r => text_in (Incident.status (snd r))
                                         ["Open"; "In Progress"])
                       (tbl_rows (cyber_incidents d)))]) ;;
  ret (match result with Some open_count => open_count | None => 0 end).

Definition category_counts : M db (list (sqltext * Z)) :=
  fetchall (fun d =>
    sql_group_count (fun r => Incident.category (snd r))
                    (tbl_rows (cyber_incidents d))).

Definition severity_counts : M db (list (sqltext * Z)) :=
  fetchall (fun d =>
    sql_group_count (fun r => Incident.severity (snd r))
                    (tbl_rows (cyber_incidents d))).

Definition status_counts : M db (list (sqltext * Z)) :=
  fetchall (fun d =>
    sql_group_count (fun r => Incident.status (snd r))
                    (tbl_rows (cyber_incidents d))).

End SecurityService.

(** ** services/dataset_service.py *)

Module DatasetService.

Definition _create_table : M db unit :=
  execute CREATE_TABLE_IF_NOT_EXISTS.

Definition INSERT (dataset_id : Z) (name : sqltext) (rows columns : Z)
  (uploaded_by upload_date : sqltext) : statement :=
  fun d =>
    Ok (on_datasets_metadata
          (sql_insert (Dataset.mk dataset_id name rows columns uploaded_by
                                  upload_date)) d).

Definition UPDATE (dataset_id : Z) (name : sqltext) (rows columns : Z)
  (uploaded_by upload_date : sqltext) (id : Z) : statement :=
  fun d =>
    Ok (on_datasets_metadata
          (sql_update id (Dataset.mk dataset_id name rows columns uploaded_by
                                     upload_date)) d).

Definition DELETE (id : Z) : statement :=
  fun d => Ok (on_datasets_metadata (sql_delete id) d).

Definition load_csv (fs : filesystem) (path : string) : M db unit :=
  df <- lift (fs path) ;;
  for_each (iterrows df) (fun row =>
    c1 <- item row "dataset_id" ;;
    dataset_id <- int c1 ;;
    name <- item row "name" ;;
    c3 <- item row "rows" ;;
    rows <- int c3 ;;
    c4 <- item row "columns" ;;
    columns <- int c4 ;;
    uploaded_by <- item row "uploaded_by" ;;
    upload_date <- item row "upload_date" ;;
    execute (INSERT dataset_id (bind_text name) rows columns
               (bind_text uploaded_by) (bind_text upload_date))).

Definition create_dataset (dataset_id : cell) (name : string)
  (rows columns : cell) (uploaded_by upload_date : string) : M db unit :=
  n <- int dataset_id ;;
  r <- int rows ;;
  c <- int columns ;;
  execute (INSERT n (Some name) r c (Some uploaded_by) (Some upload_date)).

Definition update_dataset (id : Z) (dataset_id : cell) (name : string)
  (rows columns : cell) (uploaded_by upload_date : string) : M db unit :=
  n <- int dataset_id ;;
  r <- int rows ;;
  c <- int columns ;;
  execute (UPDATE n (Some name) r c (Some uploaded_by) (Some upload_date) id).

Definition delete_dataset (id : Z) : M db unit :=
  execute (DELETE id).

Definition all : M db (list (Z * Dataset.row)) :=
  fetchall (fun d =>
    order_by_desc (fun r => Dataset.upload_date (snd r))
                  (tbl_rows (datasets_metadata d))).

Definition total_count : M db Z :=
  result <- fetchone (fun d => [sql_count (tbl_rows (datasets_metadata d))]) ;;
  ret (match result with Some total => total | None => 0 end).



End DatasetService.

(** ** services/it_service.py *)



(** The order of REAL values, NULL before every number. *)
Definition real_leb (a b : option Q) : bool :=
  match a, b with
  | None, _ => true
  | Some _, None => false
  | Some x, Some y => Qle_bool x y
  end.

Module ITService.

Definition _create_table : M db unit :=
  execute CREATE_TABLE_IF_NOT_EXISTS.

Definition INSERT (ticket_id : Z)
  (priority description status assigned_to created_at : sqltext)
  (resolution_time_hours : Z) : statement :=
  fun d =>
    Ok (on_it_tickets
          (sql_insert (Ticket.mk ticket_id priority description status
                                 assigned_to created_at
                                 resolution_time_hours)) d).

Definition UPDATE (ticket_id : Z)
  (priority description status assigned_to created_at : sqltext)
  (resolution_time_hours : Z) (id : Z) : statement :=
  fun d =>
    Ok (on_it_tickets
          (sql_update id (Ticket.mk ticket_id priority description status
                                    assigned_to created_at
                                    resolution_time_hours)) d).

Definition DELETE (id : Z) : statement :=
  fun d => Ok (on_it_tickets (sql_delete id) d).

Definition load_csv (fs : filesystem) (path : string) : M db unit :=
  df <- lift (fs path) ;;
  for_each (iterrows df) (fun row =>
    c1 <- item row "ticket_id" ;;
    ticket_id <- int c1 ;;
    priority <- item row "priority" ;;
    description <- item row "description" ;;
    status <- item row "status" ;;
    assigned_to <- item row "assigned_to" ;;
    created_at <- item row "created_at" ;;
    c7 <- item row "resolution_time_hours" ;;
    resolution_time_hours <- int c7 ;;
    execute (INSERT ticket_id (bind_text priority) (bind_text description)
               (bind_text status) (bind_text assigned_to)
               (bind_text created_at) resolution_time_hours)).

Definition create_ticket (ticket_id : cell)
  (priority description status assigned_to created_at : string)
  (resolution_time_hours : cell) : M db unit :=
  n <- int ticket_id ;;
  h <- int resolution_time_hours ;;
  execute (INSERT n (Some priority) (Some description) (Some status)
             (Some assigned_to) (Some created_at) h).

Definition update_ticket (id : Z) (ticket_id : cell)
  (priority description status assigned_to created_at : string)
  (resolution_time_hours : cell) : M db unit :=
  n <- int ticket_id ;;
  h <- int resolution_time_hours ;;
  execute (UPDATE n (Some priority) (Some description) (Some status)
             (Some assigned_to) (Some created_at) h id).

Definition delete_ticket (id : Z) : M db unit :=
  execute (DELETE id).

Definition all : M db (list (Z * Ticket.row)) :=
  fetchall (fun d =>
    order_by_desc (fun r => Ticket.created_at (snd r))
                  (tbl_rows (it_tickets d))).

Definition total_count : M db Z :=
  result <- fetchone (fun d => [sql_count (tbl_rows (it_tickets d))]) ;;
  ret (match result with Some total => total | None => 0 end).

Definition open_count : M db Z :=
  result <- fetchone (fun d =>
    [sql_count (filter (fun r => text_in (Ticket.status (snd r))
                                         ["Open"; "In Progress"])
                       (tbl_rows (it_tickets d)))]) ;;
  ret (match result with Some open_count => open_count | None => 0 end).


Definition priority_counts : M db (list (sqltext * Z)) :=
  fetchall (fun d =>
    sql_group_count (fun r => Ticket.priority (snd r))
                    (tbl_rows (it_tickets d))).

Definition status_counts : M db (list (sqltext * Z)) :=
  fetchall (fun d =>
    sql_group_count (fun r => Ticket.status (snd r))
                    (tbl_rows (it_tickets d))).

Definition assignee_summary : M db (list (sqltext * Z * option Q)) :=
  fetchall (fun d =>
    sort_by (fun x y => snd (fst y) <=? snd (fst x))
      (map (fun g =>
              (fst g, sql_count (snd g),
               sql_avg (map (fun r => Ticket.resolution_time_hours (snd r))
                            (snd g))))
           (group_by (fun r => Ticket.assigned_to (snd r))
                     (tbl_rows (it_tickets d))))).

Definition slowest_assignee : M db (list (sqltext * option Q)) :=
  fetchall (fun d =>
    firstn 1
      (sort_by (fun x y => real_leb (snd y) (snd x))
         (map (fun g =>
                 (fst g,
                  sql_avg (map (fun r => Ticket.resolution_time_hours (snd r))
                               (snd g))))
              (group_by (fun r => Ticket.assigned_to (snd r))
                        (tbl_rows (it_tickets d)))))).

End ITService.

(** ** services/auth_manager.py *)

(** The two functions of the [bcrypt] package that the manager calls.
    [hashpw password salt] is the hash; [checkpw password hashed] verifies,
    and raises on a value it cannot read as a hash. *)
Class Bcrypt : Type := {
  hashpw : bytes -> bytes -> bytes;
  checkpw : bytes -> bytes -> result bool
}.

Module AuthManager.
Section WithBcrypt.

Context {bc : Bcrypt}.

Definition _create_table : M db unit :=
  execute CREATE_TABLE_IF_NOT_EXISTS.

(** [bcrypt.checkpw] on whatever [pwd_hash] is by then: anything but
    [bytes] is a [TypeError]. *)
Definition bcrypt_checkpw (password : bytes) (hashed : pyval) : result bool :=
  match hashed with
  | PBytes h => checkpw password h
  | _ => Raise TypeError
  end.

Definition username_taken (username : sqltext) (t : table Users.row) : bool :=
  match username with
  | None => false
  | Some _ =>
      existsb (fun r => text_eqb (Users.username (snd r)) username)
              (tbl_rows t)
  end.

(** [INSERT INTO users (username, password_hash, role) VALUES (?,?,?)]
    under [username TEXT UNIQUE]. *)
Definition INSERT (username : sqltext) (password_hash : pyval)
  (role : sqltext) : statement :=
  fun d =>
    if username_taken username (users d) then Raise IntegrityError
    else Ok (on_users (sql_insert (Users.mk username password_hash role)) d).

(** [SELECT * FROM users WHERE username = ?] *)
Definition SELECT_by_username (username : string)
  : query (Z * Users.row) :=
  fun d =>
    filter (fun r => text_eqb (Users.username (snd r)) (Some username))
           (tbl_rows (users d)).

(** [salt] is the value of [bcrypt.gensalt()] in this call. *)
Definition register (salt : bytes) (username password role : string)
  : M db bool :=
  if negb (truthy username) || negb (truthy password) then ret false
  else
    let hashed := hashpw (encode password) salt in
    try_except
      (execute (INSERT (Some username) (PBytes hashed) (Some role)) ;;;
       ret true)
      (fun _ => ret false).

Definition login (username password : string)
  : M db (option (list (string * pyval))) :=
  if negb (truthy username) || negb (truthy password) then ret None
  else
    row <- fetchone (SELECT_by_username username) ;;
    match row with
    | None => ret None
    | Some (id, row) =>
        try_except
          (let pwd_hash := Users.password_hash row in
           let pwd_hash :=
             match pwd_hash with
             | PMemoryview b => PBytes b
             | _ => pwd_hash
             end in
           let pwd_hash :=
             match pwd_hash with
             | PStr s => PBytes (encode s)
             | _ => pwd_hash
             end in
           ok <- lift (bcrypt_checkpw (encode password) pwd_hash) ;;
           if ok : bool
           then ret (Some [("id", PInt id);
                           ("username", text_value (Users.username row));
                           ("role", text_value (Users.role row))])
           else ret None)
          (fun _ => ret None)
    end.

End WithBcrypt.
End AuthManager.

(** Calls on one manager, for statements about every state it can reach.
    [role = None] is a call that leaves the [role="user"] default in place. *)
Inductive call : Type :=
| DoRegister (salt : bytes) (username password : string) (role : option string)
| DoLogin (username password : string).

Definition run_call {bc : Bcrypt} (c : call) (d : db) : db :=
  match c with
  | DoRegister salt username password role =>
      snd (AuthManager.register salt username password
             (match role with Some r => r | None => "user" end) d)
  | DoLogin username password => snd (AuthManager.login username password d)
  end.

Definition run {bc : Bcrypt} (cs : list call) (d : db) : db :=
  fold_left (fun d c => run_call c d) cs d.

(** ** The shape shared by the three record-access units

    Each unit stores rows of its own type in its own table, takes the
    columns as arguments of [create] and [update], and reads them from a
    data-frame row in [load_csv].  [of_fields] and [of_series] say which
    row the arguments, respectively the cells, stand for once [int()] has
    been applied to the declared-numeric ones. *)

Record RecordAccess : Type := mkUnit {
  row : Type;
  fields : Type;
  table_of : db -> table row;
  columns : list string;
  of_fields : fields -> result row;
  of_series : Series -> result row;
  create : fields -> M db unit;
  update : Z -> fields -> M db unit;
  delete : Z -> M db unit;
  all : M db (list (Z * row));
  load_csv : filesystem -> string -> M db unit
}.

Definition rbind {A B} (r : result A) (k : A -> result B) : result B :=
  match r with
  | Ok a => k a
  | Raise e => Raise e
  end.

Notation "x <~ r ;; k" := (rbind r (fun x => k))
  (at level 100, r at next level, right associativity) : py_scope.

Definition incident_of_fields
  (x : cell * string * string * string * string * string)
  : result Incident.row :=
  let '(incident_id, timestamp, severity, category, status, description) := x in
  n <~ py_int incident_id ;;
  Ok (Incident.mk n (Some timestamp) (Some severity) (Some category)
                  (Some status) (Some description)).

Definition incident_of_series (s : Series) : result Incident.row :=
  c1 <~ getitem s "incident_id" ;;
  n <~ py_int c1 ;;
  timestamp <~ getitem s "timestamp" ;;
  severity <~ getitem s "severity" ;;
  category <~ getitem s "category" ;;
  status <~ getitem s "status" ;;
  description <~ getitem s "description" ;;
  Ok (Incident.mk n (bind_text timestamp) (bind_text severity)
                  (bind_text category) (bind_text status)
                  (bind_text description)).

Definition security_unit : RecordAccess := {|
  table_of := cyber_incidents;
  columns := ["incident_id"; "timestamp"; "severity"; "category"; "status";
              "description"];
  of_fields := incident_of_fields;
  of_series := incident_of_series;
  create := fun '(incident_id, timestamp, severity, category, status,
                  description) =>
    SecurityService.create_incident incident_id timestamp severity category
                                    status description;
  update := fun id '(incident_id, timestamp, severity, category, status,
                     description) =>
    SecurityService.update_incident id incident_id timestamp severity category
                                    status description;
  delete := SecurityService.delete_incident;
  all := SecurityService.all;
  load_csv := SecurityService.load_csv
|}.

Definition dataset_of_fields
  (x : cell * string * cell * cell * string * string)
  : result Dataset.row :=
  let '(dataset_id, name, rows, columns, uploaded_by, upload_date) := x in
  n <~ py_int dataset_id ;;
  r <~ py_int rows ;;
  c <~ py_int columns ;;
  Ok (Dataset.mk n (Some name) r c (Some uploaded_by) (Some upload_date)).

Definition dataset_of_series (s : Series) : result Dataset.row :=
  c1 <~ getitem s "dataset_id" ;;
  n <~ py_int c1 ;;
  name <~ getitem s "name" ;;
  c3 <~ getitem s "rows" ;;
  r <~ py_int c3 ;;
  c4 <~ getitem s "columns" ;;
  c <~ py_int c4 ;;
  uploaded_by <~ getitem s "uploaded_by" ;;
  upload_date <~ getitem s "upload_date" ;;
  Ok (Dataset.mk n (bind_text name) r c (bind_text uploaded_by)
                 (bind_text upload_date)).

Definition dataset_unit : RecordAccess := {|
  table_of := datasets_metadata;
  columns := ["dataset_id"; "name"; "rows"; "columns"; "uploaded_by";
              "upload_date"];
  of_fields := dataset_of_fields;
  of_series := dataset_of_series;
  create := fun '(dataset_id, name, rows, columns, uploaded_by, upload_date) =>
    DatasetService.create_dataset dataset_id name rows columns uploaded_by
                                  upload_date;
  update := fun id '(dataset_id, name, rows, columns, uploaded_by,
                     upload_date) =>
    DatasetService.update_dataset id dataset_id name rows columns uploaded_by
                                  upload_date;
  delete := DatasetService.delete_dataset;
  all := DatasetService.all;
  load_csv := DatasetService.load_csv
|}.

Definition ticket_of_fields
  (x : cell * string * string * string * string * string * cell)
  : result Ticket.row :=
  let '(ticket_id, priority, description, status, assigned_to, created_at,
        resolution_time_hours) := x in
  n <~ py_int ticket_id ;;
  h <~ py_int resolution_time_hours ;;
  Ok (Ticket.mk n (Some priority) (Some description) (Some status)
                (Some assigned_to) (Some created_at) h).

Definition ticket_of_series (s : Series) : result Ticket.row :=
  c1 <~ getitem s "ticket_id" ;;
  n <~ py_int c1 ;;
  priority <~ getitem s "priority" ;;
  description <~ getitem s "description" ;;
  status <~ getitem s "status" ;;
  assigned_to <~ getitem s "assigned_to" ;;
  created_at <~ getitem s "created_at" ;;
  c7 <~ getitem s "resolution_time_hours" ;;
  h <~ py_int c7 ;;
  Ok (Ticket.mk n (bind_text priority) (bind_text description)
                (bind_text status) (bind_text assigned_to)
                (bind_text created_at) h).

Definition ticket_unit : RecordAccess := {|
  table_of := it_tickets;
  columns := ["ticket_id"; "priority"; "description"; "status"; "assigned_to";
              "created_at"; "resolution_time_hours"];
  of_fields := ticket_of_fields;
  of_series := ticket_of_series;
  create := fun '(ticket_id, priority, description, status, assigned_to,
                  created_at, resolution_time_hours) =>
    ITService.create_ticket ticket_id priority description status assigned_to
                            created_at resolution_time_hours;
  update := fun id '(ticket_id, priority, description, status, assigned_to,
                     created_at, resolution_time_hours) =>
    ITService.update_ticket id ticket_id priority description status
                            assigned_to created_at resolution_time_hours;
  delete := ITService.delete_ticket;
  all := ITService.all;
  load_csv := ITService.load_csv
|}.

Definition ids {A} (t : table A) : list Z := map fst (tbl_rows t).

(** The primary key: no two rows of the table share an id. *)
Definition primary_key {A} (t : table A) : Prop := NoDup (ids t).

(** *** Round trip of create, update, delete through [all()] *)


(** *** Bulk import *)

(** The rows of a frame one after the other, each inserted and committed
    before the next is looked at; the first row that cannot be read ends
    the import with its error. *)
Fixpoint import_rows {A} (of_series : Series -> result A)
  (on : (table A -> table A) -> db -> db) (ss : list Series) (d : db)
  : result unit * db :=
  match ss with
  | [] => (Ok tt, d)
  | s :: ss' =>
      match of_series s with
      | Ok a => import_rows of_series on ss' (on (sql_insert a) d)
      | Raise e => (Raise e, d)
      end
  end.


(** What the methods of a unit do, in terms of the statements on its
    table. *)
Record unit_spec (U : RecordAccess)
  (on : (table (row U) -> table (row U)) -> db -> db)
  (key : row U -> sqltext) : Prop := {
  spec_get_on : forall f d, table_of U (on f d) = f (table_of U d);
  spec_on_id : forall f d, f (table_of U d) = table_of U d -> on f d = d;
  spec_create : forall x d,
    create U x d =
    match of_fields U x with
    | Ok a => (Ok tt, on (sql_insert a) d)
    | Raise e => (Raise e, d)
    end;
  spec_update : forall i x d,
    update U i x d =
    match of_fields U x with
    | Ok a => (Ok tt, on (sql_update i a) d)
    | Raise e => (Raise e, d)
    end;
  spec_delete : forall i d, delete U i d = (Ok tt, on (sql_delete i) d);
  spec_all : forall d,
    all U d =
    (Ok (order_by_desc (fun r => key (snd r)) (tbl_rows (table_of U d))), d);
  spec_load : forall fs path d,
    load_csv U fs path d =
    match fs path with
    | Ok df => import_rows (of_series U) on (iterrows df) d
    | Raise e => (Raise e, d)
    end;
  spec_missing : forall s c,
    In c (columns U) -> getitem s c = Raise (KeyError c) ->
    exists e, of_series U s = Raise e
}.

(** *** Ordering of [all()] *)

Definition newest_first {A} (all : M db (list (Z * A)))
  (tbl : db -> table A) (key : A -> sqltext) (d : db) : Prop :=
  exists l,
    all d = (Ok l, d) /\
    Permutation l (tbl_rows (tbl d)) /\
    StronglySorted
      (fun r1 r2 => text_leb (key (snd r2)) (key (snd r1)) = true) l.

(** *** The role enumeration *)

Definition role_ok (r : Z * Users.row) : Prop :=
  Users.role (snd r) = Some "user" \/ Users.role (snd r) = Some "admin".

Definition call_ok (c : call) : Prop :=
  match c with
  | DoRegister _ _ _ (Some role) => role = "user" \/ role = "admin"
  | _ => True
  end.

(** ** Concrete inputs *)

(** A stand-in for the two [bcrypt] functions, to run the manager on
    concrete inputs: two bytes of salt followed by the password. *)
Definition toy_hashpw (password salt : bytes) : bytes :=
  match salt with
  | s1 :: s2 :: _ => s1 :: s2 :: password
  | _ => Byte.x00 :: Byte.x00 :: password
  end.

Definition toy_checkpw (password hashed : bytes) : result bool :=
  match hashed with
  | _ :: _ :: rest =>
      Ok (string_of_list_byte rest =? string_of_list_byte password)%string
  | _ => Raise ValueError
  end.

Definition toy_bcrypt : Bcrypt :=
  {| hashpw := toy_hashpw; checkpw := toy_checkpw |}.

Definition incident_columns : list string :=
  ["incident_id"; "timestamp"; "severity"; "category"; "status";
   "description"].

(** Three well-formed incidents. *)
Definition three_incidents : DataFrame :=
  mkDataFrame incident_columns
    [[CInt 1001; CStr "2024-01-15 10:00:00"; CStr "High"; CStr "Phishing";
      CStr "Open"; CStr "Suspicious email"];
     [CInt 1002; CStr "2024-01-16 08:30:00"; CStr "Low"; CStr "Malware";
      CStr "Closed"; CNaN];
     [CInt 1003; CStr "2024-01-17 21:05:00"; CStr "Critical"; CStr "DDoS";
      CStr "In Progress"; CStr "Edge router"]].

(** The second incident has a text that is no integer as [incident_id], so
    pandas leaves the whole column as text. *)
Definition bad_second_row : DataFrame :=
  mkDataFrame incident_columns
    [[CStr "1001"; CStr "2024-01-15 10:00:00"; CStr "High"; CStr "Phishing";
      CStr "Open"; CStr "Suspicious email"];
     [CStr "unknown"; CStr "2024-01-16 08:30:00"; CStr "Low"; CStr "Malware";
      CStr "Closed"; CStr "Laptop"]].

(** A frame without the [severity] column. *)
Definition no_severity : DataFrame :=
  mkDataFrame ["incident_id"; "timestamp"; "category"; "status"; "description"]
    [[CInt 1001; CStr "2024-01-15 10:00:00"; CStr "Phishing"; CStr "Open";
      CStr "Suspicious email"]].

Definition sample_fs : filesystem :=
  fun path =>
    if (path =? "data/cyber_incidents.csv")%string then Ok three_incidents
    else if (path =? "data/bad.csv")%string then Ok bad_second_row
    else if (path =? "data/no_severity.csv")%string then Ok no_severity
    else Raise FileNotFoundError.


Definition sample_incident (incident_id : Z)
  (timestamp severity status : string) : Incident.row :=
  Incident.mk incident_id (Some timestamp) (Some severity) (Some "Phishing")
              (Some status) (Some EmptyString).

(** A store with four incidents and nothing else. *)
Definition sample_db : db :=
  on_cyber_incidents
    (fun t =>
       sql_insert (sample_incident 4 "2024-01-03" "High" "Open")
         (sql_insert (sample_incident 3 "2024-01-01" "Low" "In Progress")
            (sql_insert (sample_incident 2 "2024-01-05" "Critical" "Closed")
               (sql_insert (sample_incident 1 "2024-01-02" "High" "Open") t))))
    empty_db.

(** *** Queries *)



(** ** pages/2_Cybersecurity.py: the Critical/High metric *)

(** The loop over [severity_data], a row being its [severity] and [cnt]. *)
Definition critical_high (severity_data : list (sqltext * Z)) : Z :=
  match severity_data with
  | [] => 0
  | _ =>
      fold_left
        (fun critical_high row =>
           if text_in (fst row) ["Critical"; "High"]
           then critical_high + snd row
           else critical_high)
        severity_data 0
  end.

Definition critical_high_metric : M db Z :=
  severity_data <- SecurityService.severity_counts ;;
  ret (critical_high severity_data).

(** The frame that holds the given rows under the unit's columns. *)
Definition incident_cells
  (x : cell * string * string * string * string * string) : list cell :=
  let '(incident_id, timestamp, severity, category, status, description) := x in
  [incident_id; CStr timestamp; CStr severity; CStr category; CStr status;
   CStr description].

Definition dataset_cells
  (x : cell * string * cell * cell * string * string) : list cell :=
  let '(dataset_id, name, rows, columns, uploaded_by, upload_date) := x in
  [dataset_id; CStr name; rows; columns; CStr uploaded_by; CStr upload_date].

Definition ticket_cells
  (x : cell * string * string * string * string * string * cell) : list cell :=
  let '(ticket_id, priority, description, status, assigned_to, created_at,
        resolution_time_hours) := x in
  [ticket_id; CStr priority; CStr description; CStr status; CStr assigned_to;
   CStr created_at; resolution_time_hours].

(** Membership of a key in a list of keys. *)
Definition text_mem (k : sqltext) (ks : list sqltext) : bool :=
  existsb (text_eqb k) ks.

(** *** Counting queries against the rows *)

(** The counts of a grouped query add up to [total_count()]. *)
Definition adds_up (counts : M db (list (sqltext * Z)))
  (total_count : M db Z) (d : db) : Prop :=
  exists l n,
    counts d = (Ok l, d) /\ total_count d = (Ok n, d) /\
    total (map snd l) = n.

(** [open_count()] against [status_counts()] and [total_count()]. *)
Definition open_among (open_count total_count : M db Z)
  (status_counts : M db (list (sqltext * Z))) (d : db) : Prop :=
  exists o n l,
    open_count d = (Ok o, d) /\ total_count d = (Ok n, d) /\
    status_counts d = (Ok l, d) /\
    0 <= o <= n /\
    o = total (map (fun row =>
                      if text_in (fst row) ["Open"; "In Progress"]
                      then snd row else 0) l).


(** Every write of the unit keeps the primary key of its table. *)
Definition keeps_primary_key (U : RecordAccess) : Prop :=
  forall d,
    primary_key (table_of U d) ->
    (forall x, primary_key (table_of U (snd (create U x d)))) /\
    (forall i x, primary_key (table_of U (snd (update U i x d)))) /\
    (forall i, primary_key (table_of U (snd (delete U i d)))) /\
    (forall fs path, primary_key (table_of U (snd (load_csv U fs path d)))).

(** Every write of the unit leaves [others], the rest of the store, as it
    was. *)
Definition writes_only_own_table (U : RecordAccess) {X} (others : db -> X)
  : Prop :=
  forall d,
    (forall x, others (snd (create U x d)) = others d) /\
    (forall i x, others (snd (update U i x d)) = others d) /\
    (forall i, others (snd (delete U i d)) = others d) /\
    (forall fs path, others (snd (load_csv U fs path d)) = others d).


(** [load_csv] of the frame that holds the rows [xs] is [create] of each
    of them in turn. *)
Definition import_is_create (U : RecordAccess)
  (cells : fields U -> list cell) : Prop :=
  forall (fs : filesystem) (path : string) (d : db) (xs : list (fields U)),
    fs path = Ok (mkDataFrame (columns U) (map cells xs)) ->
    load_csv U fs path d = for_each xs (create U) d.

(** *** The users table under the manager's calls *)

(** The usernames of a table, NULL left out. *)
Definition usernames (t : table Users.row) : list string :=
  flat_map (fun r => match Users.username (snd r) with
                     | Some u => [u]
                     | None => []
                     end)
           (tbl_rows t).

(** ** components/auth.py and pages/1_Login.py

    A Streamlit page is a script that runs once per interaction, with the
    values of its widgets as inputs.  The embedding keeps what a run does
    to [st.session_state] and to the store and how the run ends; calls
    that only draw ([st.title], [st.success], [st.error], [st.warning],
    the layout) are left out. *)

(** The identity that [login] returns. *)
Definition user_dict := list (string * pyval).

(** The [current_user] entry of [st.session_state]: the outer [None] is
    the key not being there, the inner one the value [None]. *)
Definition session_state := option (option user_dict).

(** How a run of a script ends: it goes on to its end, or [st.stop()],
    [st.rerun()] or [st.switch_page(page)] ends it, or an exception
    does. *)
Inductive ending (A : Type) : Type :=
| goes_on (a : A)
| st_stop
| st_rerun
| st_switch_page (page : string)
| raised (e : exn).

Arguments goes_on {A} a.
Arguments st_stop {A}.
Arguments st_rerun {A}.
Arguments st_switch_page {A} page.
Arguments raised {A} e.

Definition init_session (s : session_state) : session_state :=
  match s with
  | None => Some None
  | Some _ => s
  end.

Definition is_authenticated (s : session_state) : bool * session_state :=
  let s := match s with
           | None => Some None
           | Some _ => s
           end in
  (match s with
   | Some (Some _) => true
   | _ => false
   end, s).

Definition require_auth (s : session_state) : ending bool * session_state :=
  let (authenticated, s) := is_authenticated s in
  if negb authenticated then (st_stop, s) else (goes_on true, s).

(** The first lines of the three dashboard pages. *)
Definition dashboard_guard (s : session_state)
  : ending bool * session_state :=
  require_auth (init_session s).

(** Truth value of [st.session_state.current_user] and of [user]: [None]
    and the empty dictionary are false. *)
Definition truthy_user (u : option user_dict) : bool :=
  match u with
  | Some (_ :: _) => true
  | _ => false
  end.

(** The widgets of the login page in one run. *)
Record login_widgets : Type := mkLoginWidgets {
  main_logout : bool;
  login_username : string;
  login_password : string;
  login_button : bool;
  reg_username : string;
  reg_password : string;
  create_account_button : bool
}.

(** One run of pages/1_Login.py; [salt] is what [bcrypt.gensalt()] gives
    if [register] is reached. *)
Definition login_page {bc : Bcrypt} (salt : bytes) (w : login_widgets)
  (d : db) (s : session_state) : ending unit * db * session_state :=
  let s := init_session s in
  match AuthManager._create_table d with
  | (Raise e, d) => (raised e, d, s)
  | (Ok _, d) =>
      if truthy_user (match s with Some u => u | None => None end) then
        if main_logout w then (st_rerun, d, Some None)
        else (goes_on tt, d, s)
      else
        let after_login :=
          if login_button w then
            match AuthManager.login (login_username w) (login_password w) d with
            | (Ok user, d) =>
                if truthy_user user
                then (st_switch_page "Home.py", d, Some user)
                else (goes_on tt, d, s)
            | (Raise e, d) => (raised e, d, s)
            end
          else (goes_on tt, d, s) in
        match after_login with
        | (goes_on _, d, s) =>
            if create_account_button w then
              match AuthManager.register salt (reg_username w)
                                         (reg_password w) "user" d with
              | (Ok _, d) => (goes_on tt, d, s)
              | (Raise e, d) => (raised e, d, s)
              end
            else (goes_on tt, d, s)
        | ended => ended
        end
  end.

(** Runs of the login page one after the other, whatever way each ends. *)
Definition login_pages {bc : Bcrypt} (runs : list (bytes * login_widgets))
  (d : db) (s : session_state) : db * session_state :=
  fold_left
    (fun ds r =>
       let '(_, d, s) := login_page (fst r) (snd r) (fst ds) (snd ds) in
       (d, s))
    runs (d, s).

(** The session holds the identity of a row of the users table. *)
Definition session_of_user (d : db) (s : session_state) : Prop :=
  forall u,
    s = Some (Some u) ->
    exists id row,
      In (id, row) (tbl_rows (users d)) /\
      u = [("id", PInt id); ("username", text_value (Users.username row));
           ("role", text_value (Users.role row))].

(** ** scripts/init_db.py *)






(** The store after a run of [init]: what the four calls leave, each
    from where the one before ended, returning or raising. *)
Definition after_init {bc : Bcrypt} (salt : bytes) (fs : filesystem) (d : db)
  : db :=
  let d1 := snd (AuthManager.register salt "admin" "adminpass" "admin" d) in
  let d2 := snd (SecurityService.load_csv fs "data/cyber_incidents.csv" d1) in
  let d3 := snd (DatasetService.load_csv fs "data/datasets_metadata.csv" d2) in
  snd (ITService.load_csv fs "data/it_tickets.csv" d3).



(** ** services/ai_assistant.py

    The Gemini client is a function from the request to what comes back:
    a response, or an exception, kept as the text that [str(e)] gives.
    The requests that have been sent are kept in a list, so that a call
    of the client shows.  Calls of [logger] are left out. *)

Record request : Type := mkRequest {
  model : string;
  contents : string;
  max_output_tokens : Z;
  temperature : Q
}.

(** What [generate_content] returns: an object with a [text] attribute, a
    dictionary (its [text] and [output] entries and its [str()]), or
    another object (its [str()]). *)
Inductive response : Type :=
| with_text (text : string)
| dict_response (text output : option string) (str : string)
| other_response (str : string).

Inductive reply : Type :=
| replied (r : response)
| failed (message : string).

Definition Client := request -> reply.





Module AIAssistant.

Record t : Type := mk {
  api_key : option string;
  default_model : string;
  client : option Client;
  enabled : bool
}.




End AIAssistant.

(** ** CST1510_Project/Week07/auth.py

    The users file is a text; [None] is the file not being there.  The
    functions work on the file and on what they print.  Texts are ASCII:
    a [string] holds the bytes of the text, [encode] and [decode] are the
    conversions between a text and its bytes (a bcrypt hash is ASCII), and
    [strip] takes off ASCII whitespace. *)

(** [s.split(sep)] for a separator of one character. *)
Fixpoint split (sep : ascii) (s : string) : list string :=
  match s with
  | EmptyString => [EmptyString]
  | String c s' =>
      if (c =? sep)%char then EmptyString :: split sep s'
      else
        match split sep s' with
        | field :: fields => String c field :: fields
        | [] => [String c EmptyString]
        end
  end.


Module Week07.








End Week07.



(** The file is empty or not there, or its last character is a line
    feed. *)
Fixpoint ends_line (s : string) : bool :=
  match s with
  | EmptyString => true
  | String c EmptyString => (c =? "010")%char
  | String _ s' => ends_line s'
  end.






(** * Properties *)

(** ** The order of texts *)

Lemma string_leb_trans a : forall b c,
  String.leb a b = true -> String.leb b c = true -> String.leb a c = true.
Proof.
  unfold String.leb.
  induction a as [|x a IH]; intros [|y b] [|z c]; simpl; try congruence.
  unfold Ascii.compare.
  destruct (N.compare_spec (N_of_ascii x) (N_of_ascii y)) as [Hxy|Hxy|Hxy];
    destruct (N.compare_spec (N_of_ascii y) (N_of_ascii z)) as [Hyz|Hyz|Hyz];
    try congruence.
  - rewrite Hxy, Hyz, N.compare_refl. apply IH.
  - intros _ _. rewrite Hxy. apply N.compare_lt_iff in Hyz. now rewrite Hyz.
  - intros _ _. rewrite <- Hyz. apply N.compare_lt_iff in Hxy. now rewrite Hxy.
  - intros _ _. assert (H : (N_of_ascii x < N_of_ascii z)%N) by lia.
    apply N.compare_lt_iff in H. now rewrite H.
Qed.

Lemma text_leb_total a b : text_leb a b = true \/ text_leb b a = true.
Proof. destruct a, b; simpl; auto. apply String.leb_total. Qed.

Lemma text_leb_trans a b c :
  text_leb a b = true -> text_leb b c = true -> text_leb a c = true.
Proof. destruct a, b, c; simpl; try congruence. apply string_leb_trans. Qed.

Lemma text_eqb_eq a b : text_eqb a b = true <-> a = b.
Proof.
  destruct a, b; simpl; split; try congruence.
  - intros H. apply String.eqb_eq in H. now subst.
  - intros [= ->]. apply String.eqb_refl.
Qed.

Lemma text_eqb_refl a : text_eqb a a = true.
Proof. now apply text_eqb_eq. Qed.

(** ** Sorting by insertion *)

Section Sorting.

Context {A : Type} (le : A -> A -> bool).

Lemma insert_sorted_perm x l : Permutation (insert_sorted le x l) (x :: l).
Proof.
  induction l as [|y l IH]; simpl; [reflexivity|].
  destruct (le x y); [reflexivity|].
  rewrite IH. apply perm_swap.
Qed.

Lemma sort_by_perm l : Permutation (sort_by le l) l.
Proof.
  induction l as [|x l IH]; simpl; [constructor|].
  rewrite insert_sorted_perm. now constructor.
Qed.

Hypothesis le_total : forall x y, le x y = true \/ le y x = true.
Hypothesis le_trans :
  forall x y z, le x y = true -> le y z = true -> le x z = true.

Lemma insert_sorted_sorted x l :
  StronglySorted (fun a b => le a b = true) l ->
  StronglySorted (fun a b => le a b = true) (insert_sorted le x l).
Proof.
  induction 1 as [|y l Hs IH Hall]; simpl.
  - repeat constructor.
  - destruct (le x y) eqn:E.
    + constructor; [now constructor|].
      constructor; [exact E|].
      eapply Forall_impl; [|exact Hall].
      intros z Hz. now apply le_trans with y.
    + constructor; [exact IH|].
      assert (Hyx : le y x = true) by (destruct (le_total x y); congruence).
      eapply Permutation_Forall; [symmetry; apply insert_sorted_perm|].
      now constructor.
Qed.

Lemma sort_by_sorted l :
  StronglySorted (fun a b => le a b = true) (sort_by le l).
Proof.
  induction l as [|x l IH]; simpl; [constructor|].
  now apply insert_sorted_sorted.
Qed.

End Sorting.

Lemma order_by_desc_perm {A} (key : A -> sqltext) l :
  Permutation (order_by_desc key l) l.
Proof. apply sort_by_perm. Qed.

Lemma order_by_desc_sorted {A} (key : A -> sqltext) l :
  StronglySorted (fun x y => text_leb (key y) (key x) = true)
                 (order_by_desc key l).
Proof.
  apply (sort_by_sorted (fun x y => text_leb (key y) (key x))).
  - intros x y. apply text_leb_total.
  - intros x y z Hxy Hyz. now apply text_leb_trans with (key y).
Qed.

(** ** Tables *)

Section Tables.

Context {A : Type}.
Implicit Types (t : table A) (a : A) (i : Z).

Lemma max_rowid_ge (rows : list (Z * A)) r :
  In r rows -> fst r <= max_rowid rows.
Proof.
  induction rows as [|r' rows IH]; simpl; [tauto|].
  intros [->|H]; [lia|]. specialize (IH H). lia.
Qed.

Lemma next_rowid_fresh t : ~ In (next_rowid t) (ids t).
Proof.
  unfold ids, next_rowid. intros H.
  apply in_map_iff in H. destruct H as (r & Hr & Hin).
  apply max_rowid_ge in Hin. lia.
Qed.

Lemma ids_insert a t : ids (sql_insert a t) = ids t ++ [next_rowid t].
Proof. unfold ids, sql_insert. simpl. now rewrite map_app. Qed.

Lemma ids_update i a t : ids (sql_update i a t) = ids t.
Proof.
  unfold ids, sql_update. simpl. rewrite map_map.
  apply map_ext. intros r. now destruct (fst r =? i).
Qed.

Lemma primary_key_insert a t : primary_key t -> primary_key (sql_insert a t).
Proof.
  unfold primary_key. rewrite ids_insert. intros H.
  apply NoDup_app; [exact H|repeat constructor; simpl; tauto|].
  intros x Hx [<-|[]]. now apply next_rowid_fresh in Hx.
Qed.

Lemma primary_key_update i a t : primary_key t -> primary_key (sql_update i a t).
Proof. unfold primary_key. now rewrite ids_update. Qed.

Lemma primary_key_delete i t : primary_key t -> primary_key (sql_delete i t).
Proof.
  unfold primary_key, ids, sql_delete. simpl.
  induction (tbl_rows t) as [|r rows IH]; simpl; [auto|].
  intros H. inversion H as [|? ? Hn Hd]; subst.
  destruct (fst r =? i); simpl; [auto|].
  constructor; [|auto].
  intros Hin. apply Hn. apply in_map_iff in Hin.
  destruct Hin as (r' & E & Hin). apply filter_In in Hin.
  apply in_map_iff. exists r'. tauto.
Qed.





End Tables.


(** ** The record-access units *)

Section Units.

Variable U : RecordAccess.
Variable on : (table (row U) -> table (row U)) -> db -> db.
Variable key : row U -> sqltext.
Hypothesis spec : unit_spec U on key.







End Units.

Lemma for_each_import {A} (of_series : Series -> result A)
  (on : (table A -> table A) -> db -> db) (body : Series -> M db unit) :
  (forall s d,
      body s d =
      match of_series s with
      | Ok a => (Ok tt, on (sql_insert a) d)
      | Raise e => (Raise e, d)
      end) ->
  forall ss d, for_each ss body d = import_rows of_series on ss d.
Proof.
  intros Hbody. induction ss as [|s ss IH]; intros d; simpl; [reflexivity|].
  unfold bind. rewrite Hbody. destruct (of_series s); [apply IH|reflexivity].
Qed.

(** Case analysis on the next lookup or coercion of a loop body. *)
Ltac next_result :=
  match goal with
  | |- context [match getitem ?s ?k with _ => _ end] =>
      destruct (getitem s k) eqn:?
  | |- context [match py_int ?v with _ => _ end] =>
      destruct (py_int v) eqn:?
  | |- context [rbind (getitem ?s ?k) _] =>
      destruct (getitem s k) eqn:?; simpl
  | |- context [rbind (py_int ?v) _] =>
      destruct (py_int v) eqn:?; simpl
  end.

Ltac unfold_py :=
  unfold item, int;
  unfold bind, lift, ret, execute, fetchall, fetchone, try_except.

Ltac missing_column :=
  intros s c Hc Hmiss; simpl in Hc;
  repeat (destruct Hc as [<-|Hc]; [|]); try contradiction;
  cbv beta delta [incident_of_series dataset_of_series ticket_of_series
                  of_series security_unit dataset_unit ticket_unit] iota;
  repeat (first [rewrite Hmiss; simpl | next_result]);
  eauto; congruence.

Lemma security_unit_spec :
  unit_spec security_unit on_cyber_incidents Incident.timestamp.
Proof.
  constructor.
  - reflexivity.
  - intros f [u c ds t] H. unfold on_cyber_incidents. simpl in *. now rewrite H.
  - intros [[[[[iid ts] sev] cat] st] desc] d. simpl.
    unfold SecurityService.create_incident. unfold_py.
    now destruct (py_int iid).
  - intros i [[[[[iid ts] sev] cat] st] desc] d. simpl.
    unfold SecurityService.update_incident. unfold_py.
    now destruct (py_int iid).
  - reflexivity.
  - reflexivity.
  - intros fs path d. simpl. unfold SecurityService.load_csv.
    unfold bind at 1. unfold lift at 1.
    destruct (fs path) as [df|e]; [|reflexivity].
    apply for_each_import. clear. intros s d.
    unfold_py. unfold incident_of_series, rbind.
    repeat (next_result; cbn); reflexivity.
  - missing_column.
Qed.

Lemma dataset_unit_spec :
  unit_spec dataset_unit on_datasets_metadata Dataset.upload_date.
Proof.
  constructor.
  - reflexivity.
  - intros f [u c ds t] H. unfold on_datasets_metadata. simpl in *.
    now rewrite H.
  - intros [[[[[n nm] r] c] by_] date] d. simpl.
    unfold DatasetService.create_dataset. unfold_py.
    destruct (py_int n); simpl; [|reflexivity].
    destruct (py_int r); simpl; [|reflexivity].
    now destruct (py_int c).
  - intros i [[[[[n nm] r] c] by_] date] d. simpl.
    unfold DatasetService.update_dataset. unfold_py.
    destruct (py_int n); simpl; [|reflexivity].
    destruct (py_int r); simpl; [|reflexivity].
    now destruct (py_int c).
  - reflexivity.
  - reflexivity.
  - intros fs path d. simpl. unfold DatasetService.load_csv.
    unfold bind at 1. unfold lift at 1.
    destruct (fs path) as [df|e]; [|reflexivity].
    apply for_each_import. clear. intros s d.
    unfold_py. unfold dataset_of_series, rbind.
    repeat (next_result; cbn); reflexivity.
  - missing_column.
Qed.

Lemma ticket_unit_spec :
  unit_spec ticket_unit on_it_tickets Ticket.created_at.
Proof.
  constructor.
  - reflexivity.
  - intros f [u c ds t] H. unfold on_it_tickets. simpl in *. now rewrite H.
  - intros [[[[[[n p] ds] st] who] at_] h] d. simpl.
    unfold ITService.create_ticket. unfold_py.
    destruct (py_int n); simpl; [|reflexivity].
    now destruct (py_int h).
  - intros i [[[[[[n p] ds] st] who] at_] h] d. simpl.
    unfold ITService.update_ticket. unfold_py.
    destruct (py_int n); simpl; [|reflexivity].
    now destruct (py_int h).
  - reflexivity.
  - reflexivity.
  - intros fs path d. simpl. unfold ITService.load_csv.
    unfold bind at 1. unfold lift at 1.
    destruct (fs path) as [df|e]; [|reflexivity].
    apply for_each_import. clear. intros s d.
    unfold_py. unfold ticket_of_series, rbind.
    repeat (next_result; cbn); reflexivity.
  - missing_column.
Qed.

(** ** Bulk import *)




(** ** Create, update, delete *)



(** ** Ordering of [all()] *)

(** C6.  In every state, [all()] of each unit returns the rows of its
    table, each once, in descending order of the sort key: incidents by
    [timestamp], tickets by [created_at], datasets by [upload_date]. *)
Theorem all_newest_first (d : db) :
  newest_first SecurityService.all cyber_incidents Incident.timestamp d /\
  newest_first ITService.all it_tickets Ticket.created_at d /\
  newest_first DatasetService.all datasets_metadata Dataset.upload_date d.
Proof.
  repeat split; eexists; (split; [reflexivity|]); split;
    solve [apply order_by_desc_perm
          |apply (order_by_desc_sorted (fun r => _ (snd r)))].
Qed.

(** ** Grouping and counting *)

Lemma distinct_In l : forall k, In k (distinct l) <-> In k l.
Proof.
  induction l as [|x l IH]; intros k; simpl; [tauto|].
  rewrite filter_In, IH.
  destruct (text_eqb k x) eqn:E; simpl.
  - apply text_eqb_eq in E. subst. intuition.
  - assert (x <> k) by (intros ->; now rewrite text_eqb_refl in E).
    intuition.
Qed.

Lemma distinct_NoDup l : NoDup (distinct l).
Proof.
  induction l as [|x l IH]; simpl; constructor.
  - rewrite filter_In, text_eqb_refl. simpl. intros [_ H]. discriminate.
  - now apply NoDup_filter.
Qed.

Lemma group_by_keys {A} (key : A -> sqltext) l :
  Permutation (map fst (group_by key l)) (distinct (map key l)).
Proof.
  unfold group_by, order_by_asc. rewrite map_map.
  rewrite (map_ext _ (fun k => k)) by reflexivity. rewrite map_id.
  apply sort_by_perm.
Qed.

Lemma filter_map_length {A B} (f : A -> B) (p : B -> bool) l :
  List.length (filter (fun x => p (f x)) l) = List.length (filter p (map f l)).
Proof.
  induction l as [|x l IH]; simpl; [reflexivity|].
  destruct (p (f x)); simpl; now rewrite IH.
Qed.

Lemma sql_group_count_keys {A} (key : A -> sqltext) l :
  sql_group_count key l = sql_group_count (fun k => k) (map key l).
Proof.
  unfold sql_group_count, group_by. rewrite map_id, !map_map.
  apply map_ext. intros k. cbn [fst snd]. unfold sql_count.
  now rewrite (filter_map_length key (fun x => text_eqb x k)).
Qed.

Lemma sql_group_count_fst {A} (key : A -> sqltext) l :
  map fst (sql_group_count key l) = map fst (group_by key l).
Proof. unfold sql_group_count. now rewrite map_map. Qed.

Lemma sql_group_count_In {A} (key : A -> sqltext) l k :
  In k (map key l) ->
  In (k, sql_count (filter (fun r => text_eqb (key r) k) l))
     (sql_group_count key l).
Proof.
  intros H. unfold sql_group_count, group_by. rewrite map_map. simpl.
  apply in_map_iff. exists k. split; [reflexivity|].
  eapply Permutation_in; [symmetry; apply sort_by_perm|].
  now apply distinct_In.
Qed.

Lemma text_in_open s :
  text_in s ["Open"; "In Progress"]
  = text_eqb s (Some "Open") || text_eqb s (Some "In Progress").
Proof. destruct s; simpl; [now rewrite orb_false_r|reflexivity]. Qed.

(** C7.  [severity_counts()] has one entry per severity present, carrying
    the number of rows of that severity; for severities High, Critical,
    Low, High it is High 2, Critical 1, Low 1.  [open_count()] is the
    number of rows whose status is Open or In Progress; for statuses Open,
    Closed, In Progress it is 2. *)
Theorem security_aggregates (d : db) :
  let rows := tbl_rows (cyber_incidents d) in
  let severities := map (fun r => Incident.severity (snd r)) rows in
  let statuses := map (fun r => Incident.status (snd r)) rows in
  (exists l,
      SecurityService.severity_counts d = (Ok l, d) /\
      NoDup (map fst l) /\
      forall s,
        (In s (map fst l) <-> In s severities) /\
        (In s severities ->
         In (s, Z.of_nat
                  (List.length
                     (filter (fun r => text_eqb (Incident.severity (snd r)) s)
                             rows))) l)) /\
  (severities = [Some "High"; Some "Critical"; Some "Low"; Some "High"] ->
   exists l,
     SecurityService.severity_counts d = (Ok l, d) /\
     Permutation l [(Some "High", 2); (Some "Critical", 1); (Some "Low", 1)]) /\
  SecurityService.open_count d
  = (Ok (Z.of_nat
           (List.length
              (filter (fun r =>
                         text_eqb (Incident.status (snd r)) (Some "Open")
                         || text_eqb (Incident.status (snd r))
                                     (Some "In Progress"))
                      rows))), d) /\
  (statuses = [Some "Open"; Some "Closed"; Some "In Progress"] ->
   SecurityService.open_count d = (Ok 2, d)).
Proof.
  intros rows severities statuses.
  split; [|split; [|split]].
  - eexists. split; [reflexivity|]. split.
    + rewrite sql_group_count_fst.
      eapply Permutation_NoDup;
        [symmetry; apply group_by_keys|apply distinct_NoDup].
    + intros s. split.
      * rewrite sql_group_count_fst. split; intros H.
        -- apply distinct_In.
           eapply Permutation_in; [apply group_by_keys|exact H].
        -- eapply Permutation_in; [symmetry; apply group_by_keys|].
           now apply distinct_In.
      * apply (sql_group_count_In (fun r => Incident.severity (snd r))).
  - intros H. eexists. split; [reflexivity|].
    rewrite sql_group_count_keys. fold rows. fold severities. rewrite H.
    apply perm_swap.
  - unfold SecurityService.open_count. unfold_py. simpl.
    erewrite filter_ext; [reflexivity|].
    intros r. apply text_in_open.
  - intros H. unfold SecurityService.open_count. unfold_py. simpl.
    unfold sql_count.
    rewrite (filter_map_length (fun r => Incident.status (snd r))
               (fun s => text_in s ["Open"; "In Progress"])).
    fold rows. fold statuses. now rewrite H.
Qed.

Lemma security_aggregates_witness :
  (exists l,
      SecurityService.severity_counts sample_db = (Ok l, sample_db) /\
      Permutation l [(Some "High", 2); (Some "Critical", 1); (Some "Low", 1)]) /\
  SecurityService.open_count (on_cyber_incidents (sql_delete 4) sample_db)
  = (Ok 2, on_cyber_incidents (sql_delete 4) sample_db).
Proof.
  split.
  - destruct (security_aggregates sample_db) as (_ & H & _).
    apply H. reflexivity.
  - destruct (security_aggregates
                (on_cyber_incidents (sql_delete 4) sample_db))
      as (_ & _ & _ & H).
    apply H. reflexivity.
Defined.

(** ** Queries leave the store alone *)


(** ** Average resolution time *)





(** ** Authentication *)

Section Auth.

Context {bc : Bcrypt}.

Lemma truthy_false s : truthy s = false <-> s = EmptyString.
Proof. destruct s; simpl; split; congruence. Qed.

Lemma truthy_true s : truthy s = true <-> s <> EmptyString.
Proof. destruct s; simpl; split; congruence. Qed.

Lemma username_taken_iff u (t : table Users.row) :
  AuthManager.username_taken (Some u) t = true <->
  exists r, In r (tbl_rows t) /\ Users.username (snd r) = Some u.
Proof.
  unfold AuthManager.username_taken. rewrite existsb_exists.
  split; intros (r & Hin & H); exists r; (split; [exact Hin|]);
    now apply text_eqb_eq.
Qed.

Lemma select_absent u d :
  (forall r, In r (tbl_rows (users d)) -> Users.username (snd r) <> Some u) ->
  AuthManager.SELECT_by_username u d = [].
Proof.
  unfold AuthManager.SELECT_by_username.
  induction (tbl_rows (users d)) as [|r rows IH]; simpl; [reflexivity|].
  intros H. destruct (text_eqb (Users.username (snd r)) (Some u)) eqn:E.
  - apply text_eqb_eq in E. exfalso. apply (H r); auto.
  - apply IH. intros r' Hr'. apply H. now right.
Qed.

Lemma register_rejects d salt u p role :
  u = EmptyString \/ p = EmptyString \/
  (exists r, In r (tbl_rows (users d)) /\ Users.username (snd r) = Some u) ->
  AuthManager.register salt u p role d = (Ok false, d).
Proof.
  unfold AuthManager.register.
  intros [->|[->|H]]; [reflexivity|now rewrite orb_true_r|].
  destruct (negb (truthy u) || negb (truthy p)); [reflexivity|].
  unfold_py. unfold AuthManager.INSERT.
  apply username_taken_iff in H. now rewrite H.
Qed.

Lemma register_accepts d salt u p role :
  u <> EmptyString -> p <> EmptyString ->
  (forall r, In r (tbl_rows (users d)) -> Users.username (snd r) <> Some u) ->
  AuthManager.register salt u p role d
  = (Ok true,
     on_users (sql_insert (Users.mk (Some u)
                                    (PBytes (hashpw (encode p) salt))
                                    (Some role))) d).
Proof.
  intros Hu Hp Hfree. unfold AuthManager.register.
  apply truthy_true in Hu, Hp. rewrite Hu, Hp. simpl.
  unfold_py. unfold AuthManager.INSERT.
  destruct (AuthManager.username_taken (Some u) (users d)) eqn:E;
    [|reflexivity].
  apply username_taken_iff in E. destruct E as (r & Hin & E).
  now apply Hfree in Hin.
Qed.

Lemma register_true d salt u p role d' :
  AuthManager.register salt u p role d = (Ok true, d') ->
  u <> EmptyString /\ p <> EmptyString /\
  (forall r, In r (tbl_rows (users d)) -> Users.username (snd r) <> Some u) /\
  d' = on_users (sql_insert (Users.mk (Some u)
                                      (PBytes (hashpw (encode p) salt))
                                      (Some role))) d.
Proof.
  intros H.
  destruct (string_dec u EmptyString) as [->|Hu];
    [rewrite register_rejects in H by auto; discriminate|].
  destruct (string_dec p EmptyString) as [->|Hp];
    [rewrite register_rejects in H by auto; discriminate|].
  destruct (AuthManager.username_taken (Some u) (users d)) eqn:E.
  - apply username_taken_iff in E.
    rewrite register_rejects in H by auto. discriminate.
  - assert (Hfree : forall r, In r (tbl_rows (users d)) ->
                              Users.username (snd r) <> Some u).
    { intros r Hin Hr.
      assert (Ht : AuthManager.username_taken (Some u) (users d) = true)
        by (apply username_taken_iff; eauto).
      congruence. }
    rewrite register_accepts in H by assumption.
    injection H as <-. auto.
Qed.


Lemma login_returns d u p : exists r, AuthManager.login u p d = (Ok r, d).
Proof.
  unfold AuthManager.login.
  destruct (negb (truthy u) || negb (truthy p)); [now eexists|].
  unfold_py.
  destruct (hd_error (AuthManager.SELECT_by_username u d)) as [[id row]|];
    [|now eexists].
  destruct (AuthManager.bcrypt_checkpw _ _) as [[|]|]; now eexists.
Qed.

Lemma login_verifies d u p id row rest h :
  u <> EmptyString -> p <> EmptyString ->
  AuthManager.SELECT_by_username u d = (id, row) :: rest ->
  Users.password_hash row = PBytes h \/
  Users.password_hash row = PMemoryview h \/
  (exists s, Users.password_hash row = PStr s /\ encode s = h) ->
  AuthManager.login u p d
  = (Ok match checkpw (encode p) h with
        | Ok true => Some [("id", PInt id);
                           ("username", text_value (Users.username row));
                           ("role", text_value (Users.role row))]
        | _ => None
        end, d).
Proof.
  intros Hu Hp Hsel Hhash. unfold AuthManager.login.
  apply truthy_true in Hu, Hp. rewrite Hu, Hp. simpl.
  unfold_py. rewrite Hsel. simpl.
  destruct Hhash as [->|[->|(s & -> & <-)]]; simpl;
    destruct (checkpw _ _) as [[|]|]; reflexivity.
Qed.

(** C3.  After a [register] that returned [True], [login] with the same
    username and password, bcrypt accepting the password against the hash
    it made of it, returns a dictionary with exactly the keys [id],
    [username] and [role], holding the id of the new row, the username
    and the role.  Whatever dictionary [login] returns has exactly these
    three keys, and none of its values is a byte string. *)
Theorem login_after_register (d d' : db) (salt : bytes)
  (username password role : string) :
  checkpw (encode password) (hashpw (encode password) salt) = Ok true ->
  AuthManager.register salt username password role d = (Ok true, d') ->
  (exists id,
      AuthManager.login username password d'
      = (Ok (Some [("id", PInt id); ("username", PStr username);
                   ("role", PStr role)]), d') /\
      In (id, Users.mk (Some username)
                       (PBytes (hashpw (encode password) salt)) (Some role))
         (tbl_rows (users d'))) /\
  (forall u p d0 d1 res,
      AuthManager.login u p d0 = (Ok (Some res), d1) ->
      map fst res = ["id"; "username"; "role"] /\
      forall k v, In (k, v) res ->
                  forall b, v <> PBytes b /\ v <> PMemoryview b).
Proof.
  intros Hchk Hreg. split.
  - apply register_true in Hreg. destruct Hreg as (Hu & Hp & Hfree & ->).
    exists (next_rowid (users d)). split.
    + rewrite (login_verifies _ username password (next_rowid (users d))
                 (Users.mk (Some username)
                           (PBytes (hashpw (encode password) salt))
                           (Some role))
                 [] (hashpw (encode password) salt)); auto.
      * now rewrite Hchk.
      * unfold AuthManager.SELECT_by_username. simpl. rewrite filter_app.
        fold (AuthManager.SELECT_by_username username d).
        rewrite (select_absent _ _ Hfree). simpl.
        now rewrite String.eqb_refl.
    + simpl. apply in_or_app. right. now left.
  - intros u p d0 d1 res. unfold AuthManager.login.
    destruct (negb (truthy u) || negb (truthy p)); [discriminate|].
    unfold_py.
    destruct (hd_error (AuthManager.SELECT_by_username u d0))
      as [[id row]|]; [|discriminate].
    destruct (AuthManager.bcrypt_checkpw _ _) as [[|]|]; try discriminate.
    intros [= <- _]. split; [reflexivity|].
    intros k v [[= _ <-]|[[= _ <-]|[[= _ <-]|[]]]] b;
      try (split; discriminate);
      match goal with
      | |- context [text_value ?x] => destruct x; split; discriminate
      end.
Qed.

(** C4.  [login] always returns, never raises and never changes the store.
    It returns [None] when the username or the password is empty and when
    no row has the username.  For the row it finds, a credential stored as
    bytes, as a memory view of those bytes or as the text of those bytes
    gives one and the same result: the dictionary when [bcrypt.checkpw]
    accepts the password against those bytes, [None] when it rejects it
    and [None] when it raises.  A credential of any other kind gives
    [None]. *)
Theorem login_failures (d : db) (username password : string) :
  (exists r, AuthManager.login username password d = (Ok r, d)) /\
  (username = EmptyString \/ password = EmptyString ->
   AuthManager.login username password d = (Ok None, d)) /\
  ((forall r, In r (tbl_rows (users d)) ->
              Users.username (snd r) <> Some username) ->
   AuthManager.login username password d = (Ok None, d)) /\
  (forall id row rest,
      username <> EmptyString -> password <> EmptyString ->
      AuthManager.SELECT_by_username username d = (id, row) :: rest ->
      (forall h,
          Users.password_hash row = PBytes h \/
          Users.password_hash row = PMemoryview h \/
          (exists s, Users.password_hash row = PStr s /\ encode s = h) ->
          AuthManager.login username password d
          = (Ok match checkpw (encode password) h with
                | Ok true =>
                    Some [("id", PInt id);
                          ("username", text_value (Users.username row));
                          ("role", text_value (Users.role row))]
                | Ok false | Raise _ => None
                end, d)) /\
      ((forall h, Users.password_hash row <> PBytes h /\
                  Users.password_hash row <> PMemoryview h) ->
       (forall s, Users.password_hash row <> PStr s) ->
       AuthManager.login username password d = (Ok None, d))).
Proof.
  split; [apply login_returns|]. split; [|split].
  - unfold AuthManager.login.
    intros [-> | ->]; [reflexivity|now rewrite orb_true_r].
  - intros Hfree. unfold AuthManager.login.
    destruct (negb (truthy username) || negb (truthy password));
      [reflexivity|].
    unfold_py. now rewrite (select_absent _ _ Hfree).
  - intros id row rest Hu Hp Hsel. split.
    + intros h Hh. now apply login_verifies with rest.
    + intros Hb Hs. unfold AuthManager.login.
      apply truthy_true in Hu, Hp. rewrite Hu, Hp. simpl.
      unfold_py. rewrite Hsel. simpl.
      destruct (Users.password_hash row) as [n|s|b|b| ];
        try reflexivity.
      * now destruct (Hs s).
      * now destruct (proj1 (Hb b)).
      * now destruct (proj2 (Hb b)).
Qed.

Lemma run_call_role_ok c d :
  call_ok c ->
  Forall role_ok (tbl_rows (users d)) ->
  Forall role_ok (tbl_rows (users (run_call c d))).
Proof.
  intros Hc Hd. destruct c as [salt u p role|u p]; simpl.
  - set (r := match role with Some r => r | None => "user" end).
    assert (Hr : r = "user" \/ r = "admin")
      by (destruct role; simpl in Hc; subst r; auto).
    destruct (AuthManager.register salt u p r d) as [[[|]|e] d'] eqn:E.
    + apply register_true in E. destruct E as (_ & _ & _ & ->). simpl.
      apply Forall_app. split; [exact Hd|].
      constructor; [|constructor].
      unfold role_ok. simpl. destruct Hr as [->| ->]; auto.
    + simpl. unfold AuthManager.register in E.
      destruct (negb (truthy u) || negb (truthy p));
        [now injection E as <-|].
      revert E. unfold_py. unfold AuthManager.INSERT.
      destruct (AuthManager.username_taken (Some u) (users d));
        [now intros [= <-]|discriminate].
    + simpl. unfold AuthManager.register in E.
      destruct (negb (truthy u) || negb (truthy p)); [discriminate|].
      revert E. unfold_py. unfold AuthManager.INSERT.
      destruct (AuthManager.username_taken (Some u) (users d));
        discriminate.
  - destruct (login_returns d u p) as (r & ->). exact Hd.
Qed.

(** C8, amended.  A row of the users table carries the role its
    [register] call was given, ['user'] when the call gave none; so when
    every [register] call gives ['user'] or ['admin'] or no role, every
    row's role stays within ['user'] and ['admin'], from any store where
    that was so. *)
Theorem roles_of_callers (cs : list call) (d : db) :
  Forall call_ok cs ->
  Forall role_ok (tbl_rows (users d)) ->
  Forall role_ok (tbl_rows (users (run cs d))).
Proof.
  unfold run. intros Hcs. revert d.
  induction Hcs as [|c cs Hc Hcs IH]; intros d Hd; simpl; [exact Hd|].
  apply IH. now apply run_call_role_ok.
Qed.

End Auth.

Lemma login_after_register_witness :
  let d' := on_users
              (sql_insert
                 (Users.mk (Some "alice")
                           (PBytes (toy_hashpw (encode "wonderland") []))
                           (Some "user")))
              empty_db in
  exists id,
    AuthManager.login (bc := toy_bcrypt) "alice" "wonderland" d'
    = (Ok (Some [("id", PInt id); ("username", PStr "alice");
                 ("role", PStr "user")]), d') /\
    In (id, Users.mk (Some "alice")
                     (PBytes (toy_hashpw (encode "wonderland") []))
                     (Some "user"))
       (tbl_rows (users d')).
Proof.
  intros d'.
  apply (proj1 (login_after_register (bc := toy_bcrypt) empty_db d' []
                  "alice" "wonderland" "user" eq_refl eq_refl)).
Defined.

Lemma login_failures_witness :
  let row := Users.mk (Some "admin")
                      (PStr (string_of_list_byte
                               (toy_hashpw (encode "adminpass") [])))
                      (Some "admin") in
  let d := on_users (sql_insert row) empty_db in
  AuthManager.login (bc := toy_bcrypt) "admin" "guess" d = (Ok None, d) /\
  AuthManager.login (bc := toy_bcrypt) "nobody" "guess" d = (Ok None, d) /\
  AuthManager.login (bc := toy_bcrypt) "admin" EmptyString d = (Ok None, d).
Proof.
  intros row d.
  destruct (login_failures (bc := toy_bcrypt) d "admin" "guess")
    as (_ & _ & _ & Hrow).
  destruct (login_failures (bc := toy_bcrypt) d "nobody" "guess")
    as (_ & _ & Hnone & _).
  destruct (login_failures (bc := toy_bcrypt) d "admin" EmptyString)
    as (_ & Hempty & _).
  split; [|split].
  - assert (Hu : "admin" <> EmptyString) by discriminate.
    assert (Hp : "guess" <> EmptyString) by discriminate.
    destruct (Hrow 1 row [] Hu Hp eq_refl) as [Hh _].
    apply (Hh (toy_hashpw (encode "adminpass") [])).
    right. right. eexists. split; reflexivity.
  - apply Hnone. intros r [<-|[]]. discriminate.
  - apply Hempty. right. reflexivity.
Defined.

(** C8, as stated, fails: [register] stores whatever role it is given. *)
Lemma role_outside_enumeration :
  ~ (forall cs : list call,
        Forall role_ok
               (tbl_rows (users (run (bc := toy_bcrypt) cs empty_db)))).
Proof.
  intros H.
  specialize (H [DoRegister [] "mallory" "secret" (Some "superuser")]).
  inversion H as [|r rows [E|E] _]; discriminate E.
Qed.

Lemma roles_of_callers_witness :
  Forall role_ok
    (tbl_rows
       (users
          (run (bc := toy_bcrypt)
               [DoRegister [] "admin" "adminpass" (Some "admin");
                DoRegister [] "alice" "wonderland" None;
                DoLogin "alice" "wonderland"]
               empty_db))).
Proof.
  apply (roles_of_callers (bc := toy_bcrypt)).
  - constructor; [simpl; now right|].
    constructor; [exact I|].
    constructor; [exact I|constructor].
  - constructor.
Defined.

(** * More of the code *)

(** ** Sums over groups *)

Lemma total_app l1 l2 : total (l1 ++ l2) = total l1 + total l2.
Proof.
  unfold total. induction l1 as [|x l1 IH]; simpl; [reflexivity|].
  rewrite IH. lia.
Qed.

Lemma sql_count_total {A} (l : list A) :
  sql_count l = total (map (fun _ => 1) l).
Proof.
  unfold sql_count, total. induction l as [|x l IH]; [reflexivity|].
  cbn [List.length map fold_right]. rewrite <- IH. lia.
Qed.

Section GroupSums.

Context {A : Type} (key : A -> sqltext) (w : A -> Z) (p : sqltext -> bool).

Lemma weight_split k ks l :
  text_mem k ks = false ->
  total (map w (filter (fun r => p (key r) && text_mem (key r) (k :: ks)) l))
  = (if p k then total (map w (filter (fun r => text_eqb (key r) k) l)) else 0)
    + total (map w (filter (fun r => p (key r) && text_mem (key r) ks) l)).
Proof.
  intros Hk.
  induction l as [|r l IH]; [now destruct (p k)|].
  cbn [filter text_mem existsb].
  destruct (text_eqb (key r) k) eqn:E.
  - apply text_eqb_eq in E. rewrite E in *. fold (text_mem k ks). rewrite Hk.
    rewrite andb_false_r. cbn [orb]. rewrite andb_true_r.
    destruct (p k); cbn [map]; unfold total in *; cbn [fold_right];
      fold (text_mem) in IH; cbn [text_mem existsb] in IH; rewrite ?IH; lia.
  - cbn [orb]. fold (text_mem (key r) ks).
    destruct (p (key r) && text_mem (key r) ks); cbn [map];
      unfold total in *; cbn [fold_right];
      cbn [text_mem existsb] in IH; rewrite IH; lia.
Qed.

Lemma weight_groups ks : forall l,
  NoDup ks ->
  total (map (fun k => if p k
                       then total (map w (filter (fun r => text_eqb (key r) k) l))
                       else 0) ks)
  = total (map w (filter (fun r => p (key r) && text_mem (key r) ks) l)).
Proof.
  induction ks as [|k ks IH]; intros l Hnd.
  - cbn. erewrite filter_ext; [|intros r; apply andb_false_r].
    induction l; auto.
  - inversion Hnd as [|? ? Hk Hks]; subst.
    rewrite weight_split.
    + cbn [map]. unfold total at 1. cbn [fold_right]. fold (total (map (fun k0 => if p k0 then total (map w (filter (fun r => text_eqb (key r) k0) l)) else 0) ks)).
      now rewrite IH.
    + unfold text_mem. destruct (existsb (text_eqb k) ks) eqn:E; [|reflexivity].
      apply existsb_exists in E. destruct E as (x & Hin & E).
      apply text_eqb_eq in E. now subst.
Qed.

End GroupSums.

Lemma group_by_keys_NoDup {A} (key : A -> sqltext) l :
  NoDup (order_by_asc (fun k => k) (distinct (map key l))).
Proof.
  eapply Permutation_NoDup; [symmetry; apply sort_by_perm|apply distinct_NoDup].
Qed.

Lemma group_by_keys_cover {A} (key : A -> sqltext) l r :
  In r l ->
  text_mem (key r) (order_by_asc (fun k => k) (distinct (map key l))) = true.
Proof.
  intros H. unfold text_mem. apply existsb_exists. exists (key r).
  split; [|apply text_eqb_refl].
  eapply Permutation_in; [symmetry; apply sort_by_perm|].
  apply distinct_In. now apply in_map.
Qed.

(** The weights of the groups whose key passes [p] add up to the weight
    of the rows whose key passes [p]. *)
Lemma group_by_sum {A} (key : A -> sqltext) (w : A -> Z)
  (p : sqltext -> bool) l :
  total (map (fun g => if p (fst g) then total (map w (snd g)) else 0)
             (group_by key l))
  = total (map w (filter (fun r => p (key r)) l)).
Proof.
  unfold group_by. rewrite map_map. cbn [fst snd].
  rewrite (weight_groups key w p _ l (group_by_keys_NoDup key l)).
  do 2 f_equal. apply filter_ext_in. intros r Hr.
  now rewrite (group_by_keys_cover key l r Hr), andb_true_r.
Qed.

Lemma sql_group_count_sum {A} (key : A -> sqltext) (p : sqltext -> bool) l :
  total (map (fun row => if p (fst row) then snd row else 0)
             (sql_group_count key l))
  = sql_count (filter (fun r => p (key r)) l).
Proof.
  unfold sql_group_count. rewrite map_map. cbn [fst snd].
  rewrite sql_count_total, <- (group_by_sum key (fun _ => 1) p).
  f_equal. apply map_ext. intros g. now rewrite sql_count_total.
Qed.

Lemma sql_group_count_total {A} (key : A -> sqltext) l :
  total (map snd (sql_group_count key l)) = sql_count l.
Proof.
  transitivity (sql_count (filter (fun _ => true) l)).
  - rewrite <- (sql_group_count_sum key (fun _ => true) l).
    reflexivity.
  - f_equal. induction l as [|x l IH]; cbn; [reflexivity|now rewrite IH].
Qed.

(** ** More on the record-access units *)




Section MoreUnits.

Variable U : RecordAccess.
Variable on : (table (row U) -> table (row U)) -> db -> db.
Variable key : row U -> sqltext.
Hypothesis spec : unit_spec U on key.


Lemma import_rows_primary_key ss : forall d,
  primary_key (table_of U d) ->
  primary_key (table_of U (snd (import_rows (of_series U) on ss d))).
Proof.
  induction ss as [|s ss IH]; intros d H; simpl; [exact H|].
  destruct (of_series U s); [|exact H].
  apply IH. rewrite (spec_get_on _ _ _ spec). now apply primary_key_insert.
Qed.

Lemma unit_keeps_primary_key : keeps_primary_key U.
Proof.
  intros d H. repeat split.
  - intros x. rewrite (spec_create _ _ _ spec).
    destruct (of_fields U x); [|exact H]. simpl.
    rewrite (spec_get_on _ _ _ spec). now apply primary_key_insert.
  - intros i x. rewrite (spec_update _ _ _ spec).
    destruct (of_fields U x); [|exact H]. simpl.
    rewrite (spec_get_on _ _ _ spec). now apply primary_key_update.
  - intros i. rewrite (spec_delete _ _ _ spec). simpl.
    rewrite (spec_get_on _ _ _ spec). now apply primary_key_delete.
  - intros fs path. rewrite (spec_load _ _ _ spec).
    destruct (fs path); [|exact H]. now apply import_rows_primary_key.
Qed.

Section Frame.

Context {X : Type} (others : db -> X).
Hypothesis others_on : forall f d, others (on f d) = others d.

Lemma import_rows_others ss : forall d,
  others (snd (import_rows (of_series U) on ss d)) = others d.
Proof.
  induction ss as [|s ss IH]; intros d; simpl; [reflexivity|].
  destruct (of_series U s); [|reflexivity].
  now rewrite IH, others_on.
Qed.

Lemma unit_writes_only_own_table : writes_only_own_table U others.
Proof.
  intros d. repeat split.
  - intros x. rewrite (spec_create _ _ _ spec).
    destruct (of_fields U x); [apply others_on|reflexivity].
  - intros i x. rewrite (spec_update _ _ _ spec).
    destruct (of_fields U x); [apply others_on|reflexivity].
  - intros i. rewrite (spec_delete _ _ _ spec). apply others_on.
  - intros fs path. rewrite (spec_load _ _ _ spec).
    destruct (fs path); [apply import_rows_others|reflexivity].
Qed.

End Frame.


Section Count.

Variable total_count : M db Z.
Hypothesis total_count_eq : forall d,
  total_count d = (Ok (sql_count (tbl_rows (table_of U d))), d).


End Count.

Section ImportRows.

Variable cells : fields U -> list cell.
Hypothesis cells_eq : forall x,
  of_series U (combine (columns U) (cells x)) = of_fields U x.

Lemma unit_import_is_create : import_is_create U cells.
Proof.
  intros fs path d xs H. rewrite (spec_load _ _ _ spec), H.
  unfold iterrows. simpl. clear H. revert d.
  induction xs as [|x xs IH]; intros d; simpl; [reflexivity|].
  unfold bind. rewrite cells_eq, (spec_create _ _ _ spec).
  destruct (of_fields U x); [apply IH|reflexivity].
Qed.

End ImportRows.

End MoreUnits.



(** X2.  From a store where the ids of a unit's table are pairwise
    distinct, every write of the unit ([create], [update], [delete],
    [load_csv], returning or raising) leads to a store where they still
    are. *)
Theorem writes_keep_primary_key :
  keeps_primary_key security_unit /\ keeps_primary_key dataset_unit /\
  keeps_primary_key ticket_unit.
Proof.
  split; [|split].
  - exact (unit_keeps_primary_key _ _ _ security_unit_spec).
  - exact (unit_keeps_primary_key _ _ _ dataset_unit_spec).
  - exact (unit_keeps_primary_key _ _ _ ticket_unit_spec).
Qed.

Lemma writes_keep_primary_key_witness :
  primary_key
    (cyber_incidents
       (snd (SecurityService.load_csv sample_fs "data/bad.csv" sample_db))) /\
  primary_key
    (cyber_incidents (snd (SecurityService.delete_incident 2 sample_db))).
Proof.
  destruct writes_keep_primary_key as [H _].
  assert (Hpk : primary_key (table_of security_unit sample_db)).
  { unfold primary_key. simpl. repeat constructor; simpl; intuition discriminate. }
  destruct (H sample_db Hpk) as (_ & _ & Hdel & Hload).
  split.
  - apply (Hload sample_fs "data/bad.csv").
  - apply (Hdel 2).
Defined.

(** X3.  No write of a unit touches another table: the incident methods
    leave users, datasets and tickets as they were, and likewise for the
    dataset and ticket methods, also when [load_csv] raises midway. *)
Theorem writes_stay_in_own_table :
  writes_only_own_table security_unit
    (fun d => (users d, datasets_metadata d, it_tickets d)) /\
  writes_only_own_table dataset_unit
    (fun d => (users d, cyber_incidents d, it_tickets d)) /\
  writes_only_own_table ticket_unit
    (fun d => (users d, cyber_incidents d, datasets_metadata d)).
Proof.
  split; [|split].
  - apply (unit_writes_only_own_table _ _ _ security_unit_spec). reflexivity.
  - apply (unit_writes_only_own_table _ _ _ dataset_unit_spec). reflexivity.
  - apply (unit_writes_only_own_table _ _ _ ticket_unit_spec). reflexivity.
Qed.





(** X6.  The two ways in agree: [load_csv] on the frame that holds given
    rows under the unit's column names, their text columns as texts, does
    what calling [create] on each row in turn does, with the same store
    and the same error, if any. *)
Theorem import_is_create_each_row :
  import_is_create security_unit incident_cells /\
  import_is_create dataset_unit dataset_cells /\
  import_is_create ticket_unit ticket_cells.
Proof.
  split; [|split].
  - apply (unit_import_is_create _ _ _ security_unit_spec).
    intros [[[[[iid ts] sev] cat] st] desc]. reflexivity.
  - apply (unit_import_is_create _ _ _ dataset_unit_spec).
    intros [[[[[n nm] r] c] by_] date]. reflexivity.
  - apply (unit_import_is_create _ _ _ ticket_unit_spec).
    intros [[[[[[n p] ds] st] who] at_] h]. reflexivity.
Qed.

Lemma import_is_create_each_row_witness :
  let x1 := (CInt 1001, "2024-01-15 10:00:00", "High", "Phishing", "Open",
             "Suspicious email") in
  let x2 := (CStr "unknown", "2024-01-16 08:30:00", "Low", "Malware",
             "Closed", "Laptop") in
  let fs := fun _ : string =>
              Ok (mkDataFrame incident_columns
                    [incident_cells x1; incident_cells x2]) in
  SecurityService.load_csv fs "data/cyber_incidents.csv" sample_db
  = for_each [x1; x2] (create security_unit) sample_db.
Proof.
  intros x1 x2 fs.
  destruct import_is_create_each_row as [H _].
  apply (H fs "data/cyber_incidents.csv" sample_db [x1; x2]).
  reflexivity.
Defined.

(** ** Aggregates against the rows *)

Lemma group_by_In {A} (key : A -> sqltext) l g :
  In g (group_by key l) ->
  In (fst g) (map key l) /\
  snd g = filter (fun r => text_eqb (key r) (fst g)) l.
Proof.
  unfold group_by. intros H. apply in_map_iff in H.
  destruct H as (k & <- & Hk). split; [|reflexivity]. simpl.
  apply distinct_In. eapply Permutation_in; [apply sort_by_perm|exact Hk].
Qed.

Lemma group_by_nonempty {A} (key : A -> sqltext) l g :
  In g (group_by key l) -> snd g <> [].
Proof.
  intros H. apply group_by_In in H. destruct H as (Hk & ->).
  apply in_map_iff in Hk. destruct Hk as (r & Hr & Hin).
  intros E.
  assert (Hf : In r (filter (fun r0 => text_eqb (key r0) (fst g)) l))
    by (apply filter_In; split; [exact Hin|now apply text_eqb_eq]).
  rewrite E in Hf. exact Hf.
Qed.

Lemma group_by_nil {A} (key : A -> sqltext) l :
  group_by key l = [] -> l = [].
Proof.
  unfold group_by. intros H. apply map_eq_nil in H.
  destruct l as [|r l]; [reflexivity|]. exfalso.
  assert (Hin : In (key r) (order_by_asc (fun k => k)
                                         (distinct (map key (r :: l))))).
  { eapply Permutation_in; [symmetry; apply sort_by_perm|].
    apply distinct_In. now left. }
  rewrite H in Hin. exact Hin.
Qed.

Lemma fold_left_cond_total {A} (c : A -> bool) (v : A -> Z) l : forall acc,
  fold_left (fun acc row => if c row then acc + v row else acc) l acc
  = acc + total (map (fun row => if c row then v row else 0) l).
Proof.
  unfold total. induction l as [|x l IH]; intros acc; simpl; [lia|].
  rewrite IH. destruct (c x); lia.
Qed.

Lemma critical_high_total severity_data :
  critical_high severity_data
  = total (map (fun row => if text_in (fst row) ["Critical"; "High"]
                           then snd row else 0) severity_data).
Proof.
  unfold critical_high. destruct severity_data as [|row rest]; [reflexivity|].
  now rewrite (fold_left_cond_total
                 (fun row => text_in (fst row) ["Critical"; "High"]) snd).
Qed.

Lemma text_in_two s a b :
  text_in s [a; b] = text_eqb s (Some a) || text_eqb s (Some b).
Proof. destruct s; simpl; [now rewrite orb_false_r|reflexivity]. Qed.

(** X7.  The counts of every grouped query add up to [total_count()]: no
    row is left out of the groups and none is counted twice, whatever the
    values of the grouping column, NULL included. *)
Theorem group_counts_add_up (d : db) :
  adds_up SecurityService.category_counts SecurityService.total_count d /\
  adds_up SecurityService.severity_counts SecurityService.total_count d /\
  adds_up SecurityService.status_counts SecurityService.total_count d /\
  adds_up ITService.priority_counts ITService.total_count d /\
  adds_up ITService.status_counts ITService.total_count d.
Proof.
  repeat split; do 2 eexists;
    (split; [reflexivity|split; [reflexivity|apply sql_group_count_total]]).
Qed.

(** X8.  [open_count()] lies between 0 and [total_count()], and it is the
    sum of the [status_counts()] entries for Open and In Progress, for
    incidents and for tickets. *)
Theorem open_count_among_statuses (d : db) :
  open_among SecurityService.open_count SecurityService.total_count
             SecurityService.status_counts d /\
  open_among ITService.open_count ITService.total_count
             ITService.status_counts d.
Proof.
  split; do 3 eexists;
    (split; [reflexivity|split; [reflexivity|split; [reflexivity|]]]);
    cbn [hd_error]; (split; [unfold sql_count; split;
                               [lia|apply inj_le, filter_length_le]|]).
  - symmetry.
    apply (sql_group_count_sum (fun r => Incident.status (snd r))
             (fun k => text_in k ["Open"; "In Progress"])).
  - symmetry.
    apply (sql_group_count_sum (fun r => Ticket.status (snd r))
             (fun k => text_in k ["Open"; "In Progress"])).
Qed.

(** X9.  The Critical/High metric of the cybersecurity page is the number
    of incidents whose severity is Critical or High. *)
Theorem critical_high_counts (d : db) :
  critical_high_metric d
  = (Ok (Z.of_nat
           (List.length
              (filter (fun r =>
                         text_eqb (Incident.severity (snd r)) (Some "Critical")
                         || text_eqb (Incident.severity (snd r)) (Some "High"))
                      (tbl_rows (cyber_incidents d))))), d).
Proof.
  unfold critical_high_metric, SecurityService.severity_counts. unfold_py.
  rewrite critical_high_total.
  rewrite (sql_group_count_sum (fun r => Incident.severity (snd r))
             (fun k => text_in k ["Critical"; "High"])).
  unfold sql_count. do 4 f_equal.
  apply filter_ext. intros r. apply text_in_two.
Qed.



Lemma StronglySorted_weaken {A} (R S : A -> A -> Prop) l :
  (forall x y, R x y -> S x y) -> StronglySorted R l -> StronglySorted S l.
Proof.
  intros HRS. induction 1 as [|x l Hs IH Hall]; constructor; [exact IH|].
  eapply Forall_impl; [|exact Hall]. intros y. apply HRS.
Qed.


Lemma real_leb_total a b : real_leb a b = true \/ real_leb b a = true.
Proof.
  destruct a as [x|], b as [y|]; simpl; auto.
  destruct (Qlt_le_dec x y) as [H|H].
  - left. apply Qle_bool_iff. now apply Qlt_le_weak.
  - right. now apply Qle_bool_iff.
Qed.

Lemma real_leb_trans a b c :
  real_leb a b = true -> real_leb b c = true -> real_leb a c = true.
Proof.
  destruct a as [x|], b as [y|], c as [z|]; simpl; try congruence.
  rewrite !Qle_bool_iff. apply Qle_trans.
Qed.

Lemma sql_avg_some l : l <> [] -> sql_avg l <> None.
Proof. destruct l; [congruence|discriminate]. Qed.


(** X12.  [assignee_summary()] has one entry per assignee, in descending
    order of ticket count; every entry counts at least one ticket and has
    an average that is not NULL; the ticket counts add up to
    [total_count()]. *)
Theorem assignee_summary_sorted (d : db) :
  exists l,
    ITService.assignee_summary d = (Ok l, d) /\
    StronglySorted (fun x y => snd (fst y) <= snd (fst x)) l /\
    NoDup (map (fun e => fst (fst e)) l) /\
    Forall (fun e => 1 <= snd (fst e) /\ snd e <> None) l /\
    ITService.total_count d
    = (Ok (total (map (fun e => snd (fst e)) l)), d).
Proof.
  eexists. split; [reflexivity|].
  set (key := fun r : Z * Ticket.row => Ticket.assigned_to (snd r)).
  set (rows := tbl_rows (it_tickets d)).
  set (entry := fun g : sqltext * list (Z * Ticket.row) =>
                  (fst g, sql_count (snd g),
                   sql_avg (map (fun r => Ticket.resolution_time_hours (snd r))
                                (snd g)))).
  set (le := fun x y : sqltext * Z * option Q => snd (fst y) <=? snd (fst x)).
  assert (Hperm : Permutation (sort_by le (map entry (group_by key rows)))
                              (map entry (group_by key rows)))
    by apply sort_by_perm.
  repeat split.
  - apply (StronglySorted_weaken (fun a b => le a b = true)).
    + intros x y. unfold le. apply Z.leb_le.
    + apply sort_by_sorted.
      * intros x y. unfold le.
        destruct (Z.leb_spec (snd (fst y)) (snd (fst x))); [now left|].
        right. apply Z.leb_le. lia.
      * intros x y z Hxy Hyz. unfold le in *.
        apply Z.leb_le in Hxy. apply Z.leb_le in Hyz. apply Z.leb_le. lia.
  - eapply Permutation_NoDup;
      [symmetry; apply Permutation_map; exact Hperm|].
    rewrite map_map. cbn [fst snd].
    eapply Permutation_NoDup;
      [symmetry; apply (group_by_keys key rows)|apply distinct_NoDup].
  - eapply Permutation_Forall; [symmetry; exact Hperm|].
    apply Forall_forall. intros e He. apply in_map_iff in He.
    destruct He as (g & <- & Hg). unfold entry. cbn [fst snd].
    apply group_by_nonempty in Hg. split.
    + unfold sql_count. destruct (snd g); [congruence|].
      cbn [List.length]. lia.
    + apply sql_avg_some. destruct (snd g); [congruence|discriminate].
  - unfold ITService.total_count. unfold_py. cbn [hd_error].
    do 2 f_equal. fold rows.
    rewrite <- (sql_group_count_total key rows).
    unfold sql_group_count.
    assert (Hsum : forall l1 l2 : list Z,
               Permutation l1 l2 -> total l1 = total l2).
    { clear. unfold total. induction 1; simpl; lia. }
    rewrite (Hsum _ _ (Permutation_map (fun e => snd (fst e)) Hperm)).
    now rewrite !map_map.
Qed.

(** X13.  [slowest_assignee()] is empty exactly when there is no ticket;
    otherwise it is one row, an assignee of [assignee_summary()] with its
    average there, and no assignee of [assignee_summary()] has a larger
    average. *)
Theorem slowest_assignee_is_maximal (d : db) :
  exists slowest summary,
    ITService.slowest_assignee d = (Ok slowest, d) /\
    ITService.assignee_summary d = (Ok summary, d) /\
    (tbl_rows (it_tickets d) = [] -> slowest = []) /\
    (tbl_rows (it_tickets d) <> [] ->
     exists who avg,
       slowest = [(who, Some avg)] /\
       (exists n, In (who, n, Some avg) summary) /\
       forall e, In e summary ->
                 exists avg', snd e = Some avg' /\ (avg' <= avg)%Q).
Proof.
  pose (key := fun r : Z * Ticket.row => Ticket.assigned_to (snd r)).
  pose (rows := tbl_rows (it_tickets d)).
  pose (avg_of := fun g : sqltext * list (Z * Ticket.row) =>
                    sql_avg (map (fun r => Ticket.resolution_time_hours (snd r))
                                 (snd g))).
  pose (le := fun x y : sqltext * option Q => real_leb (snd y) (snd x)).
  pose (pairs := map (fun g => (fst g, avg_of g)) (group_by key rows)).
  pose (entries := map (fun g => (fst g, sql_count (snd g), avg_of g))
                       (group_by key rows)).
  exists (firstn 1 (sort_by le pairs)),
         (sort_by (fun x y => snd (fst y) <=? snd (fst x)) entries).
  split; [reflexivity|]. split; [reflexivity|].
  change (tbl_rows (it_tickets d)) with rows.
  assert (Hperm : Permutation (sort_by le pairs) pairs) by apply sort_by_perm.
  assert (Hsorted : StronglySorted (fun a b => le a b = true) (sort_by le pairs)).
  { apply sort_by_sorted.
    - intros x y. apply real_leb_total.
    - intros x y z Hxy Hyz. unfold le in *.
      now apply real_leb_trans with (snd y). }
  assert (Hsome : forall g, In g (group_by key rows) -> avg_of g <> None).
  { intros g Hg. apply sql_avg_some. apply group_by_nonempty in Hg.
    destruct (snd g); [congruence|discriminate]. }
  split.
  - intros E. unfold pairs. rewrite E. reflexivity.
  - intros Hne.
    destruct (sort_by le pairs) as [|[who v] rest] eqn:Es.
    + exfalso. apply Permutation_nil in Hperm. unfold pairs in Hperm.
      apply map_eq_nil in Hperm. apply group_by_nil in Hperm. now apply Hne.
    + assert (Hin : In (who, v) pairs)
        by (eapply Permutation_in; [exact Hperm|now left]).
      unfold pairs in Hin. apply in_map_iff in Hin.
      destruct Hin as (g & [= <- <-] & Hg).
      destruct (avg_of g) as [avg|] eqn:Eavg; [|now apply Hsome in Hg].
      exists (fst g), avg. split; [reflexivity|]. split.
      * exists (sql_count (snd g)).
        eapply Permutation_in; [symmetry; apply sort_by_perm|].
        apply in_map_iff. exists g. fold avg_of. now rewrite Eavg.
      * intros e He.
        assert (He' : In e entries)
          by (eapply Permutation_in; [apply sort_by_perm|exact He]).
        unfold entries in He'. apply in_map_iff in He'.
        destruct He' as (g' & <- & Hg'). cbn [snd].
        destruct (avg_of g') as [avg'|] eqn:Eavg'; [|now apply Hsome in Hg'].
        exists avg'. split; [reflexivity|].
        assert (Hin' : In (fst g', Some avg') ((fst g, Some avg) :: rest)).
        { eapply Permutation_in; [symmetry; exact Hperm|].
          unfold pairs. apply in_map_iff. exists g'. now rewrite Eavg'. }
        destruct Hin' as [[= _ ->]|Hin']; [apply Qle_refl|].
        inversion Hsorted as [|? ? _ Hall]; subst.
        rewrite Forall_forall in Hall. specialize (Hall _ Hin').
        unfold le in Hall. simpl in Hall. now apply Qle_bool_iff.
Qed.

(** ** More on authentication *)

Section MoreAuth.

Context {bc : Bcrypt}.

Lemma register_cases d salt u p role :
  AuthManager.register salt u p role d = (Ok false, d) \/
  (u <> EmptyString /\ p <> EmptyString /\
   (forall r, In r (tbl_rows (users d)) -> Users.username (snd r) <> Some u) /\
   AuthManager.register salt u p role d
   = (Ok true,
      on_users (sql_insert (Users.mk (Some u)
                                     (PBytes (hashpw (encode p) salt))
                                     (Some role))) d)).
Proof.
  destruct (string_dec u EmptyString) as [->|Hu];
    [left; apply register_rejects; auto|].
  destruct (string_dec p EmptyString) as [->|Hp];
    [left; apply register_rejects; auto|].
  destruct (AuthManager.username_taken (Some u) (users d)) eqn:E.
  - left. apply register_rejects. right. right.
    now apply username_taken_iff.
  - right.
    assert (Hfree : forall r, In r (tbl_rows (users d)) ->
                              Users.username (snd r) <> Some u).
    { intros r Hin Hr.
      assert (Ht : AuthManager.username_taken (Some u) (users d) = true)
        by (apply username_taken_iff; eauto).
      congruence. }
    repeat split; auto. now apply register_accepts.
Qed.

Lemma usernames_In u (t : table Users.row) :
  In u (usernames t) <->
  exists r, In r (tbl_rows t) /\ Users.username (snd r) = Some u.
Proof.
  unfold usernames. rewrite in_flat_map. split.
  - intros (r & Hin & Hu). exists r. split; [exact Hin|].
    destruct (Users.username (snd r)); [|contradiction].
    destruct Hu as [->|[]]. reflexivity.
  - intros (r & Hin & E). exists r. split; [exact Hin|].
    rewrite E. now left.
Qed.

Lemma run_call_grows c d :
  exists more,
    tbl_rows (users (run_call c d)) = tbl_rows (users d) ++ more /\
    (NoDup (usernames (users d)) -> NoDup (usernames (users (run_call c d)))) /\
    cyber_incidents (run_call c d) = cyber_incidents d /\
    datasets_metadata (run_call c d) = datasets_metadata d /\
    it_tickets (run_call c d) = it_tickets d.
Proof.
  destruct c as [salt u p role|u p]; simpl.
  - destruct (register_cases d salt u p
                (match role with Some r => r | None => "user" end))
      as [E|(Hu & Hp & Hfree & E)]; rewrite E; simpl.
    + exists []. rewrite app_nil_r. auto.
    + eexists. split; [reflexivity|]. repeat split.
      intros Hnd. unfold usernames. simpl. rewrite flat_map_app. simpl.
      apply NoDup_app; [exact Hnd|repeat constructor; simpl; tauto|].
      intros x Hx [<-|[]].
      apply (usernames_In u (users d)) in Hx.
      destruct Hx as (r & Hin & Hr). now apply (Hfree r).
  - destruct (login_returns d u p) as (r & ->). simpl.
    exists []. rewrite app_nil_r. auto.
Qed.

Lemma run_grows cs : forall d,
  exists more,
    tbl_rows (users (run cs d)) = tbl_rows (users d) ++ more /\
    (NoDup (usernames (users d)) -> NoDup (usernames (users (run cs d)))) /\
    cyber_incidents (run cs d) = cyber_incidents d /\
    datasets_metadata (run cs d) = datasets_metadata d /\
    it_tickets (run cs d) = it_tickets d.
Proof.
  unfold run. induction cs as [|c cs IH]; intros d; simpl.
  - exists []. rewrite app_nil_r. auto.
  - destruct (run_call_grows c d) as (m1 & R1 & N1 & A1 & B1 & C1).
    destruct (IH (run_call c d)) as (m2 & R2 & N2 & A2 & B2 & C2).
    exists (m1 ++ m2). rewrite R2, R1, app_assoc.
    repeat split; auto; congruence.
Qed.

(** X14.  No sequence of [register] and [login] calls updates or deletes
    a user or touches another table: the users table afterwards is the
    one before followed by the new rows, and the incident, dataset and
    ticket tables are as they were. *)
Theorem users_only_grow (cs : list call) (d : db) :
  exists more,
    tbl_rows (users (run cs d)) = tbl_rows (users d) ++ more /\
    cyber_incidents (run cs d) = cyber_incidents d /\
    datasets_metadata (run cs d) = datasets_metadata d /\
    it_tickets (run cs d) = it_tickets d.
Proof.
  destruct (run_grows cs d) as (more & R & _ & A & B & C). eauto.
Qed.

(** X15.  Usernames stay unique: from a store where no two users share a
    username, no sequence of [register] and [login] calls reaches one
    where two do. *)
Theorem usernames_stay_unique (cs : list call) (d : db) :
  NoDup (usernames (users d)) -> NoDup (usernames (users (run cs d))).
Proof.
  destruct (run_grows cs d) as (more & _ & N & _). exact N.
Qed.

(** X16.  Credentials keep working: once [register] has returned [True]
    for a username and password that bcrypt accepts against its own hash,
    [login] with them returns the same identity after any further
    [register] and [login] calls, whatever they try with that username. *)
Theorem credentials_keep_working (d d' : db) (salt : bytes)
  (username password role : string) (cs : list call) :
  checkpw (encode password) (hashpw (encode password) salt) = Ok true ->
  AuthManager.register salt username password role d = (Ok true, d') ->
  exists id,
    In (id, Users.mk (Some username)
                     (PBytes (hashpw (encode password) salt)) (Some role))
       (tbl_rows (users d')) /\
    AuthManager.login username password (run cs d')
    = (Ok (Some [("id", PInt id); ("username", PStr username);
                 ("role", PStr role)]), run cs d').
Proof.
  intros Hchk Hreg.
  apply register_true in Hreg. destruct Hreg as (Hu & Hp & Hfree & ->).
  exists (next_rowid (users d)). split.
  - simpl. apply in_or_app. right. now left.
  - destruct (run_grows cs
                (on_users (sql_insert
                             (Users.mk (Some username)
                                (PBytes (hashpw (encode password) salt))
                                (Some role))) d))
      as (more & R & _).
    rewrite (login_verifies _ username password (next_rowid (users d))
               (Users.mk (Some username)
                         (PBytes (hashpw (encode password) salt))
                         (Some role))
               (filter (fun r => text_eqb (Users.username (snd r))
                                          (Some username)) more)
               (hashpw (encode password) salt)); auto.
    + now rewrite Hchk.
    + unfold AuthManager.SELECT_by_username. rewrite R. simpl.
      rewrite !filter_app.
      fold (AuthManager.SELECT_by_username username d).
      rewrite (select_absent _ _ Hfree). simpl.
      now rewrite String.eqb_refl.
Qed.

End MoreAuth.

Lemma usernames_stay_unique_witness :
  NoDup
    (usernames
       (users
          (run (bc := toy_bcrypt)
               [DoRegister [] "admin" "adminpass" (Some "admin");
                DoRegister [] "admin" "again" None;
                DoRegister [] "alice" "wonderland" None]
               empty_db))).
Proof.
  apply (usernames_stay_unique (bc := toy_bcrypt)). constructor.
Defined.

Lemma credentials_keep_working_witness :
  let d' := on_users
              (sql_insert
                 (Users.mk (Some "alice")
                           (PBytes (toy_hashpw (encode "wonderland") []))
                           (Some "user")))
              empty_db in
  let cs := [DoRegister [] "alice" "stolen" (Some "admin");
             DoLogin "alice" "guess";
             DoRegister [] "bob" "builder" None] in
  exists id,
    AuthManager.login (bc := toy_bcrypt) "alice" "wonderland"
                      (run (bc := toy_bcrypt) cs d')
    = (Ok (Some [("id", PInt id); ("username", PStr "alice");
                 ("role", PStr "user")]), run (bc := toy_bcrypt) cs d').
Proof.
  intros d' cs.
  destruct (credentials_keep_working (bc := toy_bcrypt) empty_db d' []
              "alice" "wonderland" "user" cs eq_refl eq_refl)
    as (id & _ & H).
  exists id. exact H.
Defined.

(** ** The session *)

Section Session.

Context {bc : Bcrypt}.

Lemma login_some_row d u p res d' :
  AuthManager.login u p d = (Ok (Some res), d') ->
  d' = d /\
  exists id row,
    In (id, row) (tbl_rows (users d)) /\
    res = [("id", PInt id); ("username", text_value (Users.username row));
           ("role", text_value (Users.role row))].
Proof.
  unfold AuthManager.login.
  destruct (negb (truthy u) || negb (truthy p)); [discriminate|].
  unfold_py.
  destruct (AuthManager.SELECT_by_username u d) as [|[id row] rest] eqn:Es;
    [discriminate|]. simpl.
  destruct (AuthManager.bcrypt_checkpw _ _) as [[|]|]; try discriminate.
  intros [= <- <-]. split; [reflexivity|].
  exists id, row. split; [|reflexivity].
  assert (Hin : In (id, row) (AuthManager.SELECT_by_username u d))
    by (rewrite Es; now left).
  unfold AuthManager.SELECT_by_username in Hin.
  now apply filter_In in Hin.
Qed.

Lemma session_of_user_grows d d' s :
  (exists more, tbl_rows (users d') = tbl_rows (users d) ++ more) ->
  session_of_user d s -> session_of_user d' s.
Proof.
  intros (more & R) H u Hu. destruct (H u Hu) as (id & row & Hin & E).
  exists id, row. split; [|exact E]. rewrite R. apply in_or_app. now left.
Qed.

Lemma session_of_user_init d s :
  session_of_user d s -> session_of_user d (init_session s).
Proof. destruct s; [auto|]. intros _ u [=]. Qed.

Lemma login_page_session salt w d s :
  session_of_user d s ->
  session_of_user (snd (fst (login_page salt w d s)))
                  (snd (login_page salt w d s)).
Proof.
  intros H. apply session_of_user_init in H.
  unfold login_page. cbn [AuthManager._create_table].
  change (AuthManager._create_table d) with (Ok tt, d).
  cbv iota beta.
  destruct (truthy_user _).
  - destruct (main_logout w); simpl; [intros u [=]|exact H].
  - assert (Hreg : forall d0 s0,
               session_of_user d0 s0 ->
               session_of_user
                 (snd (fst (if create_account_button w
                            then match AuthManager.register salt
                                         (reg_username w) (reg_password w)
                                         "user" d0 with
                                 | (Ok _, d1) => (goes_on tt, d1, s0)
                                 | (Raise e, d1) => (raised e, d1, s0)
                                 end
                            else (goes_on tt, d0, s0))))
                 (snd (if create_account_button w
                       then match AuthManager.register salt
                                    (reg_username w) (reg_password w)
                                    "user" d0 with
                            | (Ok _, d1) => (goes_on tt, d1, s0)
                            | (Raise e, d1) => (raised e, d1, s0)
                            end
                       else (goes_on tt, d0, s0)))).
    { intros d0 s0 H0. destruct (create_account_button w); [|exact H0].
      destruct (register_cases d0 salt (reg_username w) (reg_password w)
                  "user") as [E|(_ & _ & _ & E)]; rewrite E; simpl;
        [exact H0|].
      eapply session_of_user_grows; [|exact H0].
      eexists. reflexivity. }
    destruct (login_button w); [|apply Hreg, H].
    destruct (AuthManager.login (login_username w) (login_password w) d)
      as [[user|e] d1] eqn:El.
    + destruct (login_returns d (login_username w) (login_password w))
        as (r & Er). rewrite Er in El. injection El as -> <-.
      destruct (truthy_user user) eqn:Et; [|apply Hreg, H].
      simpl. unfold session_of_user. intros u [= ->].
      apply login_some_row in Er. destruct Er as (_ & id & row & Hin & ->).
      now exists id, row.
    + destruct (login_returns d (login_username w) (login_password w))
        as (r & Er). rewrite Er in El. discriminate.
Qed.

(** X17.  Whoever is in the session is a registered user: after any runs
    of the login page, with any widget values, from a session that holds
    no user (or the identity of a row of the users table), the session
    holds either no user or the id, username and role of a row of the
    users table. *)
Theorem session_holds_registered_user (runs : list (bytes * login_widgets))
  (d : db) (s : session_state) :
  session_of_user d s ->
  session_of_user (fst (login_pages runs d s)) (snd (login_pages runs d s)).
Proof.
  unfold login_pages. revert d s.
  induction runs as [|r runs IH]; intros d s H; simpl; [exact H|].
  pose proof (login_page_session (fst r) (snd r) d s H) as H1.
  destruct (login_page (fst r) (snd r) d s) as [[e d1] s1].
  apply IH. exact H1.
Qed.

(** X18.  Register, then log in, and the dashboards open: for a username
    that is free and a password that bcrypt accepts against its own hash,
    both not empty, a run of the login page with Create Account pressed
    followed by a run with Login pressed switches to the home page with
    the new user, role ['user'], in the session, and the guard of the
    dashboard pages lets the run go on. *)
Theorem register_then_login_opens_dashboards (d : db) (s : session_state)
  (salt salt' : bytes) (username password : string) :
  username <> EmptyString -> password <> EmptyString ->
  (forall r, In r (tbl_rows (users d)) ->
             Users.username (snd r) <> Some username) ->
  checkpw (encode password) (hashpw (encode password) salt) = Ok true ->
  truthy_user (match s with Some u => u | None => None end) = false ->
  let register_run :=
    mkLoginWidgets false EmptyString EmptyString false username password true in
  let login_run :=
    mkLoginWidgets false username password true EmptyString EmptyString false in
  exists id d1 s1,
    login_page salt register_run d s = (goes_on tt, d1, s1) /\
    let user := [("id", PInt id); ("username", PStr username);
                 ("role", PStr "user")] in
    login_page salt' login_run d1 s1
    = (st_switch_page "Home.py", d1, Some (Some user)) /\
    dashboard_guard (Some (Some user)) = (goes_on true, Some (Some user)).
Proof.
  intros Hu Hp Hfree Hchk Hs register_run login_run.
  set (row := Users.mk (Some username)
                       (PBytes (hashpw (encode password) salt)) (Some "user")).
  exists (next_rowid (users d)), (on_users (sql_insert row) d),
         (init_session s).
  assert (Hs' : truthy_user (match init_session s with
                             | Some u => u
                             | None => None
                             end) = false)
    by (destruct s; [exact Hs|reflexivity]).
  split.
  - unfold login_page.
    change (AuthManager._create_table d) with (Ok tt, d). cbv iota beta.
    rewrite Hs'. cbn [login_button create_account_button register_run
                      reg_username reg_password].
    now rewrite (register_accepts d salt username password "user" Hu Hp Hfree).
  - split; [|reflexivity].
    unfold login_page.
    change (AuthManager._create_table (on_users (sql_insert row) d))
      with (Ok tt, on_users (sql_insert row) d). cbv iota beta.
    assert (Hi : init_session (init_session s) = init_session s)
      by now destruct s.
    rewrite Hi, Hs'.
    cbn [login_button login_username login_password login_run].
    rewrite (login_verifies _ username password (next_rowid (users d)) row
               [] (hashpw (encode password) salt)); auto.
    + rewrite Hchk. reflexivity.
    + unfold AuthManager.SELECT_by_username. simpl. rewrite filter_app.
      fold (AuthManager.SELECT_by_username username d).
      rewrite (select_absent _ _ Hfree). simpl.
      now rewrite String.eqb_refl.
Qed.

(** X19.  The guard of the dashboard pages lets a run go on exactly when
    the session holds a user; and while the session holds a user the
    login page never reaches [login] or [register], whatever the widgets
    say: the store stays as it was, and a press on Logout ends the run
    with a rerun and an empty session, on which the guard stops. *)
Theorem guard_and_logout (d : db) (s : session_state) (salt : bytes)
  (w : login_widgets) :
  ((exists u, s = Some (Some u)) <->
   exists s', dashboard_guard s = (goes_on true, s')) /\
  (truthy_user (match s with Some u => u | None => None end) = true ->
   login_page salt w d s
   = (if main_logout w then st_rerun else goes_on tt, d,
      if main_logout w then Some None else s) /\
   dashboard_guard (Some None) = (st_stop, Some None)).
Proof.
  split.
  - split.
    + intros (u & ->). now eexists.
    + intros (s' & H). destruct s as [[u|]|]; try discriminate. now exists u.
  - intros Ht. split; [|reflexivity].
    unfold login_page.
    change (AuthManager._create_table d) with (Ok tt, d). cbv iota beta.
    assert (Hi : init_session s = s) by (destruct s; [reflexivity|discriminate]).
    rewrite Hi, Ht. now destruct (main_logout w).
Qed.

End Session.

Lemma session_holds_registered_user_witness :
  let runs :=
    [([], mkLoginWidgets false "alice" "guess" true EmptyString EmptyString
                         false);
     ([], mkLoginWidgets false EmptyString EmptyString false "alice"
                         "wonderland" true);
     ([], mkLoginWidgets false "alice" "wonderland" true EmptyString
                         EmptyString false)] in
  session_of_user (fst (login_pages (bc := toy_bcrypt) runs empty_db None))
                  (snd (login_pages (bc := toy_bcrypt) runs empty_db None)).
Proof.
  intros runs.
  apply (session_holds_registered_user (bc := toy_bcrypt) runs empty_db None).
  intros u H. discriminate H.
Defined.

Lemma register_then_login_opens_dashboards_witness :
  exists id d1 s1,
    login_page (bc := toy_bcrypt) []
      (mkLoginWidgets false EmptyString EmptyString false "alice"
                      "wonderland" true)
      empty_db None
    = (goes_on tt, d1, s1) /\
    login_page (bc := toy_bcrypt) []
      (mkLoginWidgets false "alice" "wonderland" true EmptyString EmptyString
                      false)
      d1 s1
    = (st_switch_page "Home.py", d1,
       Some (Some [("id", PInt id); ("username", PStr "alice");
                   ("role", PStr "user")])).
Proof.
  assert (Hu : "alice" <> EmptyString) by discriminate.
  assert (Hp : "wonderland" <> EmptyString) by discriminate.
  assert (Hfree : forall r, In r (tbl_rows (users empty_db)) ->
                            Users.username (snd r) <> Some "alice")
    by (intros r []).
  destruct (register_then_login_opens_dashboards (bc := toy_bcrypt)
              empty_db None [] [] "alice" "wonderland"
              Hu Hp Hfree eq_refl eq_refl)
    as (id & d1 & s1 & H1 & H2 & _).
  exists id, d1, s1. split; [exact H1|exact H2].
Defined.

Lemma guard_and_logout_witness :
  let user := [("id", PInt 1); ("username", PStr "alice");
               ("role", PStr "user")] in
  login_page (bc := toy_bcrypt) []
    (mkLoginWidgets true "bob" "builder" true "carol" "secret" true)
    empty_db (Some (Some user))
  = (st_rerun, empty_db, Some None).
Proof.
  intros user.
  destruct (guard_and_logout (bc := toy_bcrypt) empty_db (Some (Some user)) []
              (mkLoginWidgets true "bob" "builder" true "carol" "secret" true))
    as (_ & H).
  destruct (H eq_refl) as (E & _). exact E.
Defined.

(** ** The initialization script *)





Section Init.

Context {bc : Bcrypt}.


Lemma register_admin_users salt d :
  let d1 := snd (AuthManager.register salt "admin" "adminpass" "admin" d) in
  cyber_incidents d1 = cyber_incidents d /\
  datasets_metadata d1 = datasets_metadata d /\
  it_tickets d1 = it_tickets d /\
  (exists r, In r (tbl_rows (users d1)) /\
             Users.username (snd r) = Some "admin") /\
  ((exists r, In r (tbl_rows (users d)) /\
              Users.username (snd r) = Some "admin") -> d1 = d) /\
  ((forall r, In r (tbl_rows (users d)) ->
              Users.username (snd r) <> Some "admin") ->
   tbl_rows (users d1)
   = tbl_rows (users d)
     ++ [(next_rowid (users d),
          Users.mk (Some "admin")
                   (PBytes (hashpw (encode "adminpass") salt))
                   (Some "admin"))]).
Proof.
  intros d1. subst d1.
  destruct (register_cases d salt "admin" "adminpass" "admin")
    as [E|(_ & _ & Hfree & E)].
  - assert (Hex : exists r, In r (tbl_rows (users d)) /\
                            Users.username (snd r) = Some "admin").
    { destruct (AuthManager.username_taken (Some "admin") (users d)) eqn:Et.
      - now apply username_taken_iff.
      - exfalso.
        assert (Hf : forall r, In r (tbl_rows (users d)) ->
                               Users.username (snd r) <> Some "admin").
        { intros r Hin Hr.
          assert (Ht : AuthManager.username_taken (Some "admin") (users d)
                       = true) by (apply username_taken_iff; eauto).
          congruence. }
        rewrite (register_accepts d salt "admin" "adminpass" "admin") in E;
          [discriminate|discriminate|discriminate|exact Hf]. }
    rewrite E. simpl. repeat split; auto.
    intros Hf. destruct Hex as (r & Hin & Hr). now apply Hf in Hin.
  - rewrite E. simpl. repeat split.
    + eexists. split; [apply in_or_app; right; now left|reflexivity].
    + intros (r & Hin & Hr). now apply Hfree in Hin.
Qed.

Lemma after_init_users salt fs d :
  users (after_init salt fs d)
  = users (snd (AuthManager.register salt "admin" "adminpass" "admin" d)).
Proof.
  unfold after_init. cbv zeta.
  set (d1 := snd (AuthManager.register salt "admin" "adminpass" "admin" d)).
  set (d2 := snd (SecurityService.load_csv fs "data/cyber_incidents.csv" d1)).
  set (d3 := snd (DatasetService.load_csv fs "data/datasets_metadata.csv" d2)).
  destruct (unit_writes_only_own_table _ _ _ security_unit_spec users
              (fun f d => eq_refl) d1) as (_ & _ & _ & H1).
  destruct (unit_writes_only_own_table _ _ _ dataset_unit_spec users
              (fun f d => eq_refl) d2) as (_ & _ & _ & H2).
  destruct (unit_writes_only_own_table _ _ _ ticket_unit_spec users
              (fun f d => eq_refl) d3) as (_ & _ & _ & H3).
  transitivity (users d3); [exact (H3 fs "data/it_tickets.csv")|].
  transitivity (users d2); [exact (H2 fs "data/datasets_metadata.csv")|].
  exact (H1 fs "data/cyber_incidents.csv").
Qed.




(** X21.  [init] leaves one admin: when no user is called admin it adds
    one row, username admin, role admin, with the hash of the default
    password, and nothing else to the users table; when one is, it leaves
    the whole users table as it was; either way a user called admin is
    there afterwards. *)
Theorem init_leaves_one_admin (salt : bytes) (fs : filesystem) (d : db) :
  ((forall r, In r (tbl_rows (users d)) ->
              Users.username (snd r) <> Some "admin") ->
   tbl_rows (users (after_init salt fs d))
   = tbl_rows (users d)
     ++ [(next_rowid (users d),
          Users.mk (Some "admin")
                   (PBytes (hashpw (encode "adminpass") salt))
                   (Some "admin"))]) /\
  ((exists r, In r (tbl_rows (users d)) /\
              Users.username (snd r) = Some "admin") ->
   users (after_init salt fs d) = users d) /\
  (exists r, In r (tbl_rows (users (after_init salt fs d))) /\
             Users.username (snd r) = Some "admin").
Proof.
  rewrite after_init_users.
  destruct (register_admin_users salt d) as (_ & _ & _ & Hex & Hsame & Hadd).
  split; [exact Hadd|]. split; [|exact Hex].
  intros H. now rewrite (Hsame H).
Qed.


End Init.

Lemma init_leaves_one_admin_witness :
  tbl_rows (users (after_init (bc := toy_bcrypt) [] sample_fs empty_db))
  = [(1, Users.mk (Some "admin")
                  (PBytes (toy_hashpw (encode "adminpass") []))
                  (Some "admin"))] /\
  users (after_init (bc := toy_bcrypt) []
           sample_fs (after_init (bc := toy_bcrypt) [] sample_fs empty_db))
  = users (after_init (bc := toy_bcrypt) [] sample_fs empty_db).
Proof.
  split.
  - destruct (init_leaves_one_admin (bc := toy_bcrypt) [] sample_fs empty_db)
      as (H & _ & _).
    apply H. intros r [].
  - destruct (init_leaves_one_admin (bc := toy_bcrypt) [] sample_fs
                (after_init (bc := toy_bcrypt) [] sample_fs empty_db))
      as (_ & H & _).
    apply H. eexists. split; [left; reflexivity|reflexivity].
Defined.


(** ** The AI assistant *)





(** ** The users file of Week07 *)










Lemma ends_line_tail (c : ascii) (s : string) :
  ends_line (String c s) = true -> s <> EmptyString -> ends_line s = true.
Proof.
  destruct s as [|c' s]; [congruence|]. intros H _. exact H.
Qed.











Section Week07Facts.
Context {bc : Bcrypt}.







End Week07Facts.






